(** * Aeodos landing page: a shallow embedding of its browser scripts

    The page (index.html) loads four scripts: the example switcher
    (assets/js/codeExamples.js), the key-request modal (assets/js/main.js),
    the playground (assets/js/playground.js) and a small highlighter.  Each
    controller is embedded as state-passing code over a record of the DOM
    nodes it touches; exceptions are explicit, and the network is a log of
    the requests that were issued.

    Part I holds the definitions, Part II the properties. *)

From Stdlib Require Import List Arith NArith String Ascii Bool Lia.
Import ListNotations.
Open Scope list_scope.
Set Warnings "-register-all".

(* ================================================================== *)
(** * Part I: the embedding *)
(* ================================================================== *)

(** ** JavaScript strings

    A JavaScript string is a sequence of UTF-16 code units; [length] counts
    code units, and a regular expression without the [u] flag reads them one
    by one. *)
Module JsString.

Definition jsstring := list N.

(** A literal of the source text (plain ASCII there). *)
Fixpoint lit (s : string) : jsstring :=
  match s with
  | EmptyString => []
  | String c s' => N_of_ascii c :: lit s'
  end.

(** [a === b] on strings. *)
Fixpoint eqb (a b : jsstring) : bool :=
  match a, b with
  | [], [] => true
  | x :: a', y :: b' => N.eqb x y && eqb a' b'
  | _, _ => false
  end.

(** [s.length]. *)
Definition length (s : jsstring) : nat := List.length s.

(** The code units of the ECMAScript productions WhiteSpace and
    LineTerminator: what [\s] matches. *)
Definition is_space (c : N) : bool :=
  (N.eqb c 9 || N.eqb c 10 || N.eqb c 11 || N.eqb c 12 || N.eqb c 13
   || N.eqb c 32 || N.eqb c 160 || N.eqb c 5760
   || (N.leb 8192 c && N.leb c 8202)
   || N.eqb c 8232 || N.eqb c 8233 || N.eqb c 8239 || N.eqb c 8287
   || N.eqb c 12288 || N.eqb c 65279)%N.

(** The double quote, for literals that hold one. *)
Definition dq : string := String (ascii_of_nat 34) EmptyString.

(** A double-quoted piece of a literal. *)
Definition q (s : string) : string := (dq ++ s ++ dq)%string.

Definition eq_dec : forall a b : jsstring, {a = b} + {a <> b} :=
  list_eq_dec N.eq_dec.

Definition at_sign : N := 64.   (* @ *)
Definition full_stop : N := 46. (* . *)

End JsString.
Import JsString.

(** ** Regular expressions

    The fragment that [isValidEmail] needs: literals, negated classes,
    concatenation and [+].  [test] decides a whole-string match: for an
    expression of this fragment, anchored at both ends, the backtracking
    search of [RegExp.prototype.test] succeeds exactly when the whole
    string is in the language. *)
Module Regex.

Inductive atom : Type :=
| Lit (c : N)                       (* one literal code unit *)
| NoneOf (space : bool) (cs : list N). (* [^...]; [space]: \s is excluded *)

Definition accepts (a : atom) (c : N) : bool :=
  match a with
  | Lit d => N.eqb c d
  | NoneOf sp cs =>
      negb (sp && is_space c) && negb (existsb (N.eqb c) cs)
  end.

Inductive re : Type :=
| Void
| Eps
| Atom (a : atom)
| Cat (r1 r2 : re)
| Alt (r1 r2 : re)
| Star (r : re).

(** [r+] *)
Definition Plus (r : re) : re := Cat r (Star r).

Fixpoint nullable (r : re) : bool :=
  match r with
  | Void => false
  | Eps => true
  | Atom _ => false
  | Cat r1 r2 => nullable r1 && nullable r2
  | Alt r1 r2 => nullable r1 || nullable r2
  | Star _ => true
  end.

(** Brzozowski derivative: what is left of [r] after reading [c]. *)
Fixpoint deriv (c : N) (r : re) : re :=
  match r with
  | Void => Void
  | Eps => Void
  | Atom a => if accepts a c then Eps else Void
  | Cat r1 r2 =>
      if nullable r1
      then Alt (Cat (deriv c r1) r2) (deriv c r2)
      else Cat (deriv c r1) r2
  | Alt r1 r2 => Alt (deriv c r1) (deriv c r2)
  | Star r1 => Cat (deriv c r1) (Star r1)
  end.

(** [/^r$/.test(s)] *)
Fixpoint test (r : re) (s : jsstring) : bool :=
  match s with
  | [] => nullable r
  | c :: s' => test (deriv c r) s'
  end.

(** The language of an expression. *)
Inductive Matches : re -> jsstring -> Prop :=
| MEps : Matches Eps []
| MAtom a c : accepts a c = true -> Matches (Atom a) [c]
| MCat r1 r2 s1 s2 :
    Matches r1 s1 -> Matches r2 s2 -> Matches (Cat r1 r2) (s1 ++ s2)
| MAltL r1 r2 s : Matches r1 s -> Matches (Alt r1 r2) s
| MAltR r1 r2 s : Matches r2 s -> Matches (Alt r1 r2) s
| MStarNil r : Matches (Star r) []
| MStarCons r s1 s2 :
    Matches r s1 -> Matches (Star r) s2 -> Matches (Star r) (s1 ++ s2).

End Regex.

(** ** Values, coercions and exceptions *)
Module Js.

(** A parsed JSON document.  A number is kept as its canonical rendering
    ([Number::toString]); an object as its own properties in insertion
    order, one entry per key, as [JSON.parse] builds it. *)
Inductive json : Type :=
| JNull
| JBool (b : bool)
| JNum (repr : jsstring)
| JStr (s : jsstring)
| JArr (items : list json)
| JObj (fields : list (jsstring * json)).

(** What a property read yields: [None] is [undefined]. *)
Definition value := option json.

Record Error : Type := mkError { name : string; message : jsstring }.

Inductive result (A : Type) : Type :=
| Ok (a : A)
| Throw (e : Error).
Arguments Ok {A} a.
Arguments Throw {A} e.

Fixpoint assoc {A : Type} (k : jsstring) (l : list (jsstring * A)) : option A :=
  match l with
  | [] => None
  | (k', v) :: l' => if JsString.eqb k k' then Some v else assoc k l'
  end.

(** [data.key] for the keys the scripts read ([detail], [previewUrl],
    [api_key]): none of them names a built-in property, so only an object
    can hold one; reading it off [null] throws a TypeError (the wording of
    its message is the engine's). *)
Definition get (data : json) (key : jsstring) : result value :=
  match data with
  | JNull => Throw (mkError "TypeError" (lit "Cannot read properties of null"))
  | JObj fields => Ok (assoc key fields)
  | _ => Ok None
  end.

(** ToBoolean *)
Definition truthy (v : value) : bool :=
  match v with
  | None => false
  | Some JNull => false
  | Some (JBool b) => b
  | Some (JNum repr) => negb (JsString.eqb repr (lit "0"))
  | Some (JStr s) => negb (JsString.eqb s [])
  | Some (JArr _) => true
  | Some (JObj _) => true
  end.

Definition comma : N := 44.

(** ToString on a parsed JSON value: arrays join their items with a
    comma (a [null] item gives the empty string), objects give the
    fixed tag.  (An object that has a property of its own named [toString]
    makes ToString throw instead; the properties that depend on an object's
    string exclude objects, see [Primitive].) *)
Fixpoint to_string (j : json) : jsstring :=
  match j with
  | JNull => lit "null"
  | JBool true => lit "true"
  | JBool false => lit "false"
  | JNum repr => repr
  | JStr s => s
  | JArr items =>
      let fix join (l : list json) : jsstring :=
        match l with
        | [] => []
        | x :: rest =>
            (match x with JNull => [] | _ => to_string x end)
            ++ (match rest with [] => [] | _ :: _ => comma :: join rest end)
        end
      in join items
  | JObj _ => lit "[object Object]"
  end.

(** ToString on any value a template literal may interpolate. *)
Definition value_to_string (v : value) : jsstring :=
  match v with
  | None => lit "undefined"
  | Some j => to_string j
  end.

(** [a || b] where [b] is a string literal. *)
Definition or_else (a : value) (b : jsstring) : json :=
  if truthy a then match a with Some j => j | None => JStr b end else JStr b.

(** [new Error(v)] *)
Definition new_Error (v : json) : Error := mkError "Error" (to_string v).

End Js.
Import Js.

(** ** State and exceptions

    A handler runs on a state [S]; it ends normally with a value or throws,
    and what it did to the state before throwing stays done. *)
Module Eff.

Definition M (S A : Type) : Type := S -> S * result A.

Definition ret {S A : Type} (a : A) : M S A := fun s => (s, Ok a).

Definition bind {S A B : Type} (m : M S A) (k : A -> M S B) : M S B :=
  fun s =>
    match m s with
    | (s', Ok a) => k a s'
    | (s', Throw e) => (s', Throw e)
    end.

Definition throw {S A : Type} (e : Error) : M S A := fun s => (s, Throw e).

Definition gets {S A : Type} (f : S -> A) : M S A := fun s => (s, Ok (f s)).

Definition modify {S : Type} (f : S -> S) : M S unit := fun s => (f s, Ok tt).

(** Lift the outcome of an effect-free step. *)
Definition lift {S A : Type} (r : result A) : M S A := fun s => (s, r).

(** [try { body } catch (e) { handler }] *)
Definition try_catch {S A : Type} (body : M S A) (handler : Error -> M S A)
  : M S A :=
  fun s =>
    match body s with
    | (s', Ok a) => (s', Ok a)
    | (s', Throw e) => handler e s'
    end.

(** [try { body } finally { finalizer }]: the finalizer always runs; when
    it throws, its exception replaces the outcome of the body. *)
Definition finally {S A : Type} (body : M S A) (finalizer : M S unit)
  : M S A :=
  fun s =>
    match body s with
    | (s', r) =>
        match finalizer s' with
        | (s'', Ok _) => (s'', r)
        | (s'', Throw e) => (s'', Throw e)
        end
    end.

(** [xs.forEach(x => f(x))] *)
Fixpoint forEach {S A : Type} (xs : list A) (f : A -> M S unit) : M S unit :=
  match xs with
  | [] => ret tt
  | x :: xs' => bind (f x) (fun _ => forEach xs' f)
  end.

Definition state_of {S A : Type} (p : S * result A) : S := fst p.
Definition outcome_of {S A : Type} (p : S * result A) : result A := snd p.

End Eff.
Import Eff.

Declare Scope eff_scope.
Delimit Scope eff_scope with eff.
Notation "x <- m ;; k" := (bind m (fun x => k))
  (at level 61, m at next level, right associativity) : eff_scope.
Notation "m ;; k" := (bind m (fun _ => k))
  (at level 61, right associativity) : eff_scope.
Open Scope eff_scope.

(** ** The network

    A [fetch] is logged when it is issued; what it settles to is given from
    outside: the transport fails, or a response arrives whose body parses
    to JSON or does not. *)
Module Net.

Record Request : Type := mkRequest {
  url : jsstring;
  method : jsstring;
  headers : list (jsstring * jsstring);
  body : json
}.

Record Response : Type := mkResponse {
  ok : bool;                 (* status in 200..299 *)
  json_body : result json    (* what [await response.json()] settles to *)
}.

Inductive FetchOutcome : Type :=
| NetworkFailure (e : Error)
| Responded (r : Response).

(** What [await fetch(...)] gives back once the request was issued. *)
Definition settle (o : FetchOutcome) : result Response :=
  match o with
  | NetworkFailure e => Throw e
  | Responded r => Ok r
  end.

(** The request did not succeed: the transport failed, or the response is
    not a 2xx one. *)
Definition failed (o : FetchOutcome) : Prop :=
  match o with
  | NetworkFailure _ => True
  | Responded r => ok r = false
  end.

End Net.
Import Net.

(** ** docs/api-reference: the documented error format *)
Module Docs.

(** The body of the 400 response printed in
    docs/api-reference/endpoints/website/generate.md; the reference says
    that all errors follow this format. *)
Definition documented_error : json :=
  JObj [(lit "error", JBool true);
        (lit "code", JStr (lit "INVALID_REQUEST"));
        (lit "message", JStr (lit "Invalid request parameters"));
        (lit "details",
         JObj [(lit "description", JStr (lit "Description is required"))])].

End Docs.
Import Docs.

(** ** The highlighter

    [Prism] is a global that the page may or may not have, with or without
    each entry point; what markup it produces is opaque.  The source has two:
    the stand-alone script offers [highlightAll] only, the one that
    index.html installs when the document is ready offers both. *)
Module Highlighter.

Record Prism : Type := mkPrism {
  has_highlightAll : bool;
  has_highlightElement : bool
}.

Definition prism_js : Prism := mkPrism true false.
Definition index_html_Prism : Prism := mkPrism true true.

(** [typeof Prism !== 'undefined' && Prism.highlightAll] *)
Definition highlightAll_available (p : option Prism) : bool :=
  match p with
  | None => false
  | Some h => has_highlightAll h
  end.

Definition highlightElement_available (p : option Prism) : bool :=
  match p with
  | None => false
  | Some h => has_highlightElement h
  end.

End Highlighter.
Import Highlighter.

(** ** assets/js/main.js: the key-request modal *)
Module KeyRequest.
Import Regex.

Definition apiEndpoint : jsstring := lit "http://api.canopus.software/aeodos".

(** An input of the form with the [.form-group] around it: the value
    typed in, whether the group carries the class [error], and the
    [.error-message] nodes appended to the group, oldest first. *)
Record Field : Type := mkField {
  value : jsstring;
  group_error : bool;
  group_messages : list jsstring
}.

(** The modal as [showApiKeyModal] builds it, and the requests issued. *)
Record State : Type := mkState {
  email : Field;                (* #email *)
  company : Field;              (* #company *)
  form_attached : bool;         (* #apiKeyForm is in the document *)
  submit_disabled : bool;       (* the submit button's [disabled] *)
  submit_loading : bool;        (* its class list holds [loading] *)
  spinner_display : jsstring;   (* .loading-spinner style.display *)
  button_text : jsstring;       (* the button's span *)
  banners : list jsstring;      (* error banners in the form, newest first *)
  shown_key : option jsstring;  (* the success view and the key in it *)
  requests : list Request       (* fetch calls, newest first *)
}.

Definition with_email (f : Field) (s : State) : State :=
  mkState f (company s) (form_attached s) (submit_disabled s)
          (submit_loading s) (spinner_display s) (button_text s)
          (banners s) (shown_key s) (requests s).

Definition with_company (f : Field) (s : State) : State :=
  mkState (email s) f (form_attached s) (submit_disabled s)
          (submit_loading s) (spinner_display s) (button_text s)
          (banners s) (shown_key s) (requests s).

Definition with_loading (l : bool) (d t : jsstring) (s : State) : State :=
  mkState (email s) (company s) (form_attached s) (submit_disabled s)
          l d t (banners s) (shown_key s) (requests s).

Definition with_banner (m : jsstring) (s : State) : State :=
  mkState (email s) (company s) (form_attached s) (submit_disabled s)
          (submit_loading s) (spinner_display s) (button_text s)
          (m :: banners s) (shown_key s) (requests s).

Definition with_success (k : jsstring) (s : State) : State :=
  mkState (email s) (company s) false (submit_disabled s)
          (submit_loading s) (spinner_display s) (button_text s)
          (banners s) (Some k) (requests s).

Definition with_request (r : Request) (s : State) : State :=
  mkState (email s) (company s) (form_attached s) (submit_disabled s)
          (submit_loading s) (spinner_display s) (button_text s)
          (banners s) (shown_key s) (r :: requests s).

(** The form right after [showApiKeyModal], with the two values typed. *)
Definition opened (e c : jsstring) : State :=
  mkState (mkField e false []) (mkField c false []) true false
          false (lit "none") (lit "Generate API Key") [] None [].

(** [[^\s@]] *)
Definition not_space_or_at : re := Atom (NoneOf true [at_sign]).

(** [/^[^\s@]+@[^\s@]+\.[^\s@]+$/] *)
Definition email_pattern : re :=
  Cat (Plus not_space_or_at)
    (Cat (Atom (Lit at_sign))
      (Cat (Plus not_space_or_at)
        (Cat (Atom (Lit full_stop))
          (Plus not_space_or_at)))).

Definition isValidEmail (e : jsstring) : bool := test email_pattern e.

(** The pattern in words: a local part, one [@], a domain, a dot and a
    suffix, the three parts non-empty and free of white space and of [@].
    This reading is compared with [isValidEmail] in Part II. *)
Definition plain (c : N) : Prop := is_space c = false /\ c <> at_sign.

Definition well_formed_email (e : jsstring) : Prop :=
  exists local domain suffix,
    e = local ++ [at_sign] ++ domain ++ [full_stop] ++ suffix /\
    local <> [] /\ domain <> [] /\ suffix <> [] /\
    Forall plain local /\ Forall plain domain /\ Forall plain suffix.

Definition invalid_email_message : jsstring :=
  lit "Please enter a valid business email".
Definition short_company_message : jsstring :=
  lit "Company name is too short".

(** [showFieldError(field, message)]: mark the group, append the note. *)
Definition annotate (message : jsstring) (f : Field) : Field :=
  mkField (value f) true (group_messages f ++ [message]).

Definition showFieldError_email (message : jsstring) : M State unit :=
  modify (fun s => with_email (annotate message (email s)) s).

Definition showFieldError_company (message : jsstring) : M State unit :=
  modify (fun s => with_company (annotate message (company s)) s).

(** One group of [clearErrors]: a group that carries [error] loses the
    class and its first note; any other group is not selected. *)
Definition clear_group (f : Field) : Field :=
  if group_error f
  then mkField (value f) false (tl (group_messages f))
  else f.

Definition clearErrors : M State unit :=
  modify (fun s =>
    with_company (clear_group (company s))
      (with_email (clear_group (email s)) s)).

Definition validateForm : M State bool :=
  e <- gets email ;;
  c <- gets company ;;
  v1 <- (if negb (isValidEmail (value e))
         then showFieldError_email invalid_email_message ;; ret false
         else ret true) ;;
  v2 <- (if Nat.ltb (JsString.length (value c)) 2
         then showFieldError_company short_company_message ;; ret false
         else ret v1) ;;
  ret v2.

(** The form as [validateForm] leaves it. *)
Definition validated (s : State) : State :=
  let s1 := if negb (isValidEmail (value (email s)))
            then with_email (annotate invalid_email_message (email s)) s
            else s in
  if Nat.ltb (JsString.length (value (company s))) 2
  then with_company (annotate short_company_message (company s1)) s1
  else s1.

Definition setFormLoading (loading : bool) : M State unit :=
  if loading
  then modify (with_loading true (lit "block") (lit "Generating..."))
  else modify (with_loading false (lit "none") (lit "Generate API Key")).

(** The success view replaces the modal's content, the form with it.
    [shown_key] is the string put between the tags of the view; it reads
    as that string when it holds no markup (see [Html.html_safe]). *)
Definition showSuccessMessage (apiKey : Js.value) : M State unit :=
  modify (with_success (value_to_string apiKey)).

(** The banner goes into [#apiKeyForm], looked up in the document. *)
Definition showErrorMessage (message : jsstring) : M State unit :=
  attached <- gets form_attached ;;
  if attached
  then modify (with_banner message)
  else throw (mkError "TypeError" (lit "Cannot read properties of null")).

Definition keys_request (s : State) : Request :=
  mkRequest (apiEndpoint ++ lit "/keys/generate") (lit "POST")
            [(lit "Content-Type", lit "application/json")]
            (JObj [(lit "email", JStr (value (email s)));
                   (lit "company_name", JStr (value (company s)))]).

(** The call [fetch(...)] itself: build the request and send it. *)
Definition fetch_keys : M State unit :=
  modify (fun s => with_request (keys_request s) s).

(** What follows the two [await]s in the [try] block. *)
Definition after_fetch (o : FetchOutcome) : M State unit :=
  response <- lift (settle o) ;;
  data <- lift (json_body response) ;;
  if negb (ok response)
  then
    detail <- lift (get data (lit "detail")) ;;
    throw (new_Error (or_else detail (lit "Failed to generate API key")))
  else
    api_key <- lift (get data (lit "api_key")) ;;
    showSuccessMessage api_key.

Definition on_error (error : Error) : M State unit :=
  showErrorMessage (message error).

(** [handleApiKeyGeneration(e)], run to its end against the outcome [o]
    of its fetch. *)
Definition handleApiKeyGeneration (o : FetchOutcome) : M State unit :=
  clearErrors ;;
  valid <- validateForm ;;
  if negb valid then ret tt
  else
    finally
      (try_catch
         (setFormLoading true ;;
          fetch_keys ;;
          after_fetch o)
         on_error)
      (setFormLoading false).

(** The same handler cut at its suspension point: [begin] runs up to the
    pending fetch and tells whether one was issued; [resume] runs from the
    settled fetch to the end. *)
Definition handleApiKeyGeneration_begin : M State bool :=
  clearErrors ;;
  valid <- validateForm ;;
  if negb valid then ret false
  else setFormLoading true ;; fetch_keys ;; ret true.

Definition handleApiKeyGeneration_resume (o : FetchOutcome) : M State unit :=
  finally (try_catch (after_fetch o) on_error) (setFormLoading false).

(** *** The form as the user drives it

    A submit reaches the handler when the form is in the document and its
    submit button is not disabled; a pending fetch settles at some later
    event.  [in_flight] counts the fetches issued and not yet settled. *)
Inductive Event : Type :=
| Submit
| Settled (o : FetchOutcome).

Record Session : Type := mkSession {
  page : State;
  in_flight : nat;
  unhandled : list Error     (* rejections of the handler's promise *)
}.

Definition record_outcome {A : Type} (r : result A) (u : list Error)
  : list Error :=
  match r with
  | Ok _ => u
  | Throw e => e :: u
  end.

Definition step (x : Session) (ev : Event) : Session :=
  match ev with
  | Submit =>
      if form_attached (page x) && negb (submit_disabled (page x))
      then
        match handleApiKeyGeneration_begin (page x) with
        | (s, Ok true) => mkSession s (S (in_flight x)) (unhandled x)
        | (s, r) => mkSession s (in_flight x) (record_outcome r (unhandled x))
        end
      else x
  | Settled o =>
      match in_flight x with
      | O => x
      | S n =>
          match handleApiKeyGeneration_resume o (page x) with
          | (s, r) => mkSession s n (record_outcome r (unhandled x))
          end
      end
  end.

Definition run (x : Session) (evs : list Event) : Session :=
  fold_left step evs x.

Definition start (e c : jsstring) : Session := mkSession (opened e c) 0 [].

End KeyRequest.

(** *** What the form looks like between submissions *)
Module KeyRequestNotes.
Import KeyRequest.

(** A group is marked and carries one note, or is clean. *)
Definition tidy (f : Field) : Prop :=
  (group_error f = true /\ List.length (group_messages f) = 1) \/
  (group_error f = false /\ group_messages f = []).

(** The form once [setFormLoading(true)] ran and the fetch was issued. *)
Definition submitted (s : State) : State :=
  with_request (keys_request s)
    (with_loading true (lit "block") (lit "Generating...") s).

(** The form as [clearErrors] leaves it. *)
Definition cleared (s : State) : State :=
  with_company (clear_group (company s))
    (with_email (clear_group (email s)) s).

End KeyRequestNotes.

(** ** assets/js/playground.js: the playground *)
Module Playground.

Definition apiEndpoint : jsstring := lit "http://api.canopus.software/aeodos".
Definition demoApiKey : jsstring := lit "demo_key_123".

Definition home : jsstring := lit "home".
Definition modern : jsstring := lit "modern".
Definition default_description : jsstring :=
  lit "A modern business website with a clean design".

(** The options of [#websiteStyle] in index.html. *)
Definition style_options : list jsstring :=
  [modern; lit "minimal"; lit "corporate"; lit "creative"].

Record Checkbox : Type := mkCheckbox {
  cb_value : jsstring;
  cb_checked : bool
}.

(** The nodes of index.html the playground works on, the global [Prism],
    and the requests issued. *)
Record State : Type := mkState {
  description : jsstring;            (* #websiteDescription .value *)
  style : jsstring;                  (* #websiteStyle .value *)
  checkboxes : list Checkbox;        (* .checkbox input[type=checkbox], in document order *)
  previewCode : option json;         (* #previewCode shows JSON.stringify of it *)
  previewCode_highlighted : bool;    (* its markup was rewritten by Prism *)
  previewFrame_src : option jsstring;(* #previewFrame .src *)
  runButton_disabled : bool;         (* #runCode .disabled *)
  runButton_text : jsstring;         (* #runCode .textContent *)
  previewMode_disabled : bool;       (* #previewMode .disabled *)
  previewControls_loading : bool;    (* .preview-controls has class loading *)
  prism : option Prism;              (* the global Prism *)
  requests : list Request            (* fetch calls, newest first *)
}.

Definition with_description (d : jsstring) (s : State) : State :=
  mkState d (style s) (checkboxes s) (previewCode s)
          (previewCode_highlighted s) (previewFrame_src s)
          (runButton_disabled s) (runButton_text s) (previewMode_disabled s)
          (previewControls_loading s) (prism s) (requests s).

Definition with_style (v : jsstring) (s : State) : State :=
  mkState (description s) v (checkboxes s) (previewCode s)
          (previewCode_highlighted s) (previewFrame_src s)
          (runButton_disabled s) (runButton_text s) (previewMode_disabled s)
          (previewControls_loading s) (prism s) (requests s).

Definition with_checkboxes (c : list Checkbox) (s : State) : State :=
  mkState (description s) (style s) c (previewCode s)
          (previewCode_highlighted s) (previewFrame_src s)
          (runButton_disabled s) (runButton_text s) (previewMode_disabled s)
          (previewControls_loading s) (prism s) (requests s).

Definition with_previewCode (j : option json) (h : bool) (s : State) : State :=
  mkState (description s) (style s) (checkboxes s) j h
          (previewFrame_src s)
          (runButton_disabled s) (runButton_text s) (previewMode_disabled s)
          (previewControls_loading s) (prism s) (requests s).

Definition with_previewFrame_src (u : jsstring) (s : State) : State :=
  mkState (description s) (style s) (checkboxes s)
          (previewCode s) (previewCode_highlighted s) (Some u)
          (runButton_disabled s) (runButton_text s) (previewMode_disabled s)
          (previewControls_loading s) (prism s) (requests s).

Definition with_runButton (d : bool) (t : jsstring) (s : State) : State :=
  mkState (description s) (style s) (checkboxes s)
          (previewCode s) (previewCode_highlighted s) (previewFrame_src s)
          d t (previewMode_disabled s)
          (previewControls_loading s) (prism s) (requests s).

Definition with_previewLoading (l : bool) (s : State) : State :=
  mkState (description s) (style s) (checkboxes s)
          (previewCode s) (previewCode_highlighted s) (previewFrame_src s)
          (runButton_disabled s) (runButton_text s) l l (prism s) (requests s).

Definition with_request (r : Request) (s : State) : State :=
  mkState (description s) (style s) (checkboxes s)
          (previewCode s) (previewCode_highlighted s) (previewFrame_src s)
          (runButton_disabled s) (runButton_text s) (previewMode_disabled s)
          (previewControls_loading s) (prism s) (r :: requests s).

(** The playground of index.html before any script ran, under a given
    global [Prism]. *)
Definition index_html (p : option Prism) : State :=
  mkState [] modern
          [mkCheckbox home true; mkCheckbox (lit "about") false;
           mkCheckbox (lit "contact") false; mkCheckbox (lit "services") false]
          None false None false (lit "Generate Website") false false p [].

(** [select.value = v]: the option with that value gets selected; with no
    such option nothing is selected and the value reads as empty. *)
Definition select_value (options : list jsstring) (v : jsstring) : jsstring :=
  if existsb (JsString.eqb v) options then v else [].

(** [getSelectedPages()]: start from [['home']] and push the value of each
    checked box, in document order, unless it is ['home']. *)
Definition getSelectedPages (s : State) : list jsstring :=
  fold_left
    (fun pages checkbox =>
       if negb (JsString.eqb (cb_value checkbox) home)
       then pages ++ [cb_value checkbox]
       else pages)
    (filter cb_checked (checkboxes s))
    [home].

(** [updatePreviewCode(data)]: write the text, then ask the global
    highlighter, unguarded. *)
Definition updatePreviewCode (data : json) : M State unit :=
  modify (with_previewCode (Some data) false) ;;
  p <- gets prism ;;
  match p with
  | None => throw (mkError "ReferenceError" (lit "Prism is not defined"))
  | Some h =>
      if has_highlightElement h
      then modify (with_previewCode (Some data) true)
      else throw (mkError "TypeError"
                          (lit "Prism.highlightElement is not a function"))
  end.

Definition initial_message : json :=
  JObj [(lit "message",
         JStr (lit ("Configure your website and click " ++ dq
                  ++ "Generate Website" ++ dq ++ " to see the result")))].

Definition setInitialState : M State unit :=
  modify (with_description default_description) ;;
  updatePreviewCode initial_message.

(** [{ error: true, message: message }] *)
Definition error_object (message : jsstring) : json :=
  JObj [(lit "error", JBool true); (lit "message", JStr message)].

Definition showError (message : jsstring) : M State unit :=
  updatePreviewCode (error_object message).

Definition setPreviewLoading (loading : bool) : M State unit :=
  modify (with_previewLoading loading).

Definition resetPlayground : M State unit :=
  modify (with_description []) ;;
  modify (with_style (select_value style_options modern)) ;;
  modify (fun s =>
    with_checkboxes
      (map (fun checkbox =>
              mkCheckbox (cb_value checkbox)
                         (JsString.eqb (cb_value checkbox) home))
           (checkboxes s)) s) ;;
  setInitialState.

Definition config (s : State) : json :=
  JObj [(lit "description", JStr (description s));
        (lit "style", JStr (style s));
        (lit "pages", JArr (map JStr (getSelectedPages s)))].

Definition generate_request (s : State) : Request :=
  mkRequest (apiEndpoint ++ lit "/generate/website") (lit "POST")
            [(lit "Content-Type", lit "application/json");
             (lit "Authorization", lit "Bearer " ++ demoApiKey)]
            (config s).

(** The [try] block up to and with the call of [fetch]. *)
Definition before_fetch : M State unit :=
  modify (fun s => with_runButton true (runButton_text s) s) ;;
  modify (fun s => with_runButton (runButton_disabled s) (lit "Generating...") s) ;;
  setPreviewLoading true ;;
  modify (fun s => with_request (generate_request s) s).

(** The [try] block after its two [await]s. *)
Definition after_fetch (o : FetchOutcome) : M State unit :=
  response <- lift (settle o) ;;
  data <- lift (json_body response) ;;
  if ok response
  then
    updatePreviewCode data ;;
    previewUrl <- lift (get data (lit "previewUrl")) ;;
    if truthy previewUrl
    then modify (with_previewFrame_src (value_to_string previewUrl))
    else ret tt
  else
    detail <- lift (get data (lit "detail")) ;;
    throw (new_Error (or_else detail (lit "Generation failed"))).

Definition on_error (error : Error) : M State unit :=
  showError (message error).

Definition at_last : M State unit :=
  modify (fun s => with_runButton false (runButton_text s) s) ;;
  modify (fun s => with_runButton (runButton_disabled s) (lit "Generate Website") s) ;;
  setPreviewLoading false.

(** [generateWebsite()], run to its end against the outcome [o] of its
    fetch. *)
Definition generateWebsite (o : FetchOutcome) : M State unit :=
  finally
    (try_catch (before_fetch ;; after_fetch o) on_error)
    at_last.

(** The same handler cut at its suspension point. *)
Definition generateWebsite_begin : M State unit := before_fetch.

Definition generateWebsite_resume (o : FetchOutcome) : M State unit :=
  finally (try_catch (after_fetch o) on_error) at_last.

(** *** The playground as the user drives it

    For a page on which the manager was constructed and its listeners
    attached.  A click on a disabled button is not dispatched; a pending
    fetch settles at some later event. *)
Inductive Event : Type :=
| ClickRun
| ClickReset
| Settled (o : FetchOutcome).

Record Session : Type := mkSession {
  page : State;
  in_flight : nat;
  unhandled : list Error
}.

Definition record_outcome {A : Type} (r : result A) (u : list Error)
  : list Error :=
  match r with
  | Ok _ => u
  | Throw e => e :: u
  end.

Definition step (x : Session) (ev : Event) : Session :=
  match ev with
  | ClickRun =>
      if runButton_disabled (page x) then x
      else
        match generateWebsite_begin (page x) with
        | (s, Ok _) => mkSession s (S (in_flight x)) (unhandled x)
        | (s, r) => mkSession s (in_flight x) (record_outcome r (unhandled x))
        end
  | ClickReset =>
      match resetPlayground (page x) with
      | (s, r) => mkSession s (in_flight x) (record_outcome r (unhandled x))
      end
  | Settled o =>
      match in_flight x with
      | O => x
      | S n =>
          match generateWebsite_resume o (page x) with
          | (s, r) => mkSession s n (record_outcome r (unhandled x))
          end
      end
  end.

Definition run (x : Session) (evs : list Event) : Session :=
  fold_left step evs x.

Definition start (s : State) : Session := mkSession s 0 [].

(** Nothing is pending, or one fetch is and the button is disabled. *)
Definition guarded (x : Session) : Prop :=
  in_flight x = 0 \/ (in_flight x = 1 /\ runButton_disabled (page x) = true).

End Playground.

(** ** assets/js/codeExamples.js: the example switcher *)
Module CodeExamples.

(** *** The static store

    Each snippet is the cooked value of its template literal: a backslash
    at the end of a line continues the line and leaves nothing behind. *)

(** [codeExamples.curl.authentication] *)
Definition curl_authentication : jsstring := lit (
"curl -X POST http://api.canopus.software/Aoede/keys/generate -H " ++ q "Content-Type: application/json" ++ " -d '{
    " ++ q "email" ++ ": " ++ q "your@email.com" ++ ",
    " ++ q "company_name" ++ ": " ++ q "Your Company" ++ "
}'").

(** [codeExamples.curl.websiteGeneration] *)
Definition curl_websiteGeneration : jsstring := lit (
"curl -X POST http://api.canopus.software/Aoede/generate/website -H " ++ q "Authorization: Bearer YOUR_API_KEY" ++ " -H " ++ q "Content-Type: application/json" ++ " -d '{
    " ++ q "description" ++ ": " ++ q "A modern business website" ++ ",
    " ++ q "style" ++ ": " ++ q "minimal" ++ ",
    " ++ q "pages" ++ ": [" ++ q "home" ++ ", " ++ q "about" ++ ", " ++ q "contact" ++ "]
}'").

(** [codeExamples.curl.projectStatus] *)
Definition curl_projectStatus : jsstring := lit (
"curl http://api.canopus.software/Aoede/projects/PROJECT_ID/status -H " ++ q "Authorization: Bearer YOUR_API_KEY").

(** [codeExamples.python.authentication] *)
Definition python_authentication : jsstring := lit (
"import requests

response = requests.post(
    'http://api.canopus.software/Aoede/keys/generate',
    json={
        'email': 'your@email.com',
        'company_name': 'Your Company'
    }
)

api_key = response.json()['api_key']").

(** [codeExamples.python.websiteGeneration] *)
Definition python_websiteGeneration : jsstring := lit (
"import requests

response = requests.post(
    'http://api.canopus.software/Aoede/generate/website',
    headers={'Authorization': 'Bearer YOUR_API_KEY'},
    json={
        'description': 'A modern business website',
        'style': 'minimal',
        'pages': ['home', 'about', 'contact']
    }
)

project = response.json()").

(** [codeExamples.python.projectStatus] *)
Definition python_projectStatus : jsstring := lit (
"import requests

response = requests.get(
    'http://api.canopus.software/Aoede/projects/PROJECT_ID/status',
    headers={'Authorization': 'Bearer YOUR_API_KEY'}
)

status = response.json()").

(** [codeExamples.javascript.authentication] *)
Definition javascript_authentication : jsstring := lit (
"// Using fetch API
const response = await fetch('http://api.canopus.software/Aoede/keys/generate', {
    method: 'POST',
    headers: {
        'Content-Type': 'application/json'
    },
    body: JSON.stringify({
        email: 'your@email.com',
        company_name: 'Your Company'
    })
});

const { api_key } = await response.json();").

(** [codeExamples.javascript.websiteGeneration] *)
Definition javascript_websiteGeneration : jsstring := lit (
"// Generate website
const response = await fetch('http://api.canopus.software/Aoede/generate/website', {
    method: 'POST',
    headers: {
        'Authorization': 'Bearer YOUR_API_KEY',
        'Content-Type': 'application/json'
    },
    body: JSON.stringify({
        description: 'A modern business website',
        style: 'minimal',
        pages: ['home', 'about', 'contact']
    })
});

const project = await response.json();").

(** [codeExamples.javascript.projectStatus] *)
Definition javascript_projectStatus : jsstring := lit (
"// Check project status
const response = await fetch(
    'http://api.canopus.software/Aoede/projects/PROJECT_ID/status',
    {
        headers: {
            'Authorization': 'Bearer YOUR_API_KEY'
        }
    }
);

const status = await response.json();").

(** [codeExamples.php.authentication] *)
Definition php_authentication : jsstring := lit (
"<?php
$ch = curl_init('http://api.canopus.software/Aoede/keys/generate');
$data = [
    'email' => 'your@email.com',
    'company_name' => 'Your Company'
];

curl_setopt_array($ch, [
    CURLOPT_POST => true,
    CURLOPT_RETURNTRANSFER => true,
    CURLOPT_HTTPHEADER => ['Content-Type: application/json'],
    CURLOPT_POSTFIELDS => json_encode($data)
]);

$response = curl_exec($ch);
$result = json_decode($response, true);
$api_key = $result['api_key'];
curl_close($ch);").

(** [codeExamples.php.websiteGeneration] *)
Definition php_websiteGeneration : jsstring := lit (
"<?php
$ch = curl_init('http://api.canopus.software/Aoede/generate/website');
$data = [
    'description' => 'A modern business website',
    'style' => 'minimal',
    'pages' => ['home', 'about', 'contact']
];

curl_setopt_array($ch, [
    CURLOPT_POST => true,
    CURLOPT_RETURNTRANSFER => true,
    CURLOPT_HTTPHEADER => [
        'Authorization: Bearer YOUR_API_KEY',
        'Content-Type: application/json'
    ],
    CURLOPT_POSTFIELDS => json_encode($data)
]);

$response = curl_exec($ch);
$project = json_decode($response, true);
curl_close($ch);").

(** [codeExamples.php.projectStatus] *)
Definition php_projectStatus : jsstring := lit (
"<?php
$ch = curl_init('http://api.canopus.software/Aoede/projects/PROJECT_ID/status');

curl_setopt_array($ch, [
    CURLOPT_RETURNTRANSFER => true,
    CURLOPT_HTTPHEADER => ['Authorization: Bearer YOUR_API_KEY']
]);

$response = curl_exec($ch);
$status = json_decode($response, true);
curl_close($ch);").

(** [codeExamples.go.authentication] *)
Definition go_authentication : jsstring := lit (
"package main

import (
    " ++ q "bytes" ++ "
    " ++ q "encoding/json" ++ "
    " ++ q "net/http" ++ "
)

func main() {
    data := map[string]string{
        " ++ q "email" ++ ": " ++ q "your@email.com" ++ ",
        " ++ q "company_name" ++ ": " ++ q "Your Company" ++ ",
    }
    
    jsonData, _ := json.Marshal(data)
    
    req, _ := http.NewRequest(" ++ q "POST" ++ ", 
        " ++ q "http://api.canopus.software/Aoede/keys/generate" ++ ",
        bytes.NewBuffer(jsonData))
        
    req.Header.Set(" ++ q "Content-Type" ++ ", " ++ q "application/json" ++ ")
    
    client := &http.Client{}
    resp, _ := client.Do(req)
    
    var result map[string]interface{}
    json.NewDecoder(resp.Body).Decode(&result)
    apiKey := result[" ++ q "api_key" ++ "].(string)
}").

(** [codeExamples.go.websiteGeneration] *)
Definition go_websiteGeneration : jsstring := lit (
"package main

import (
    " ++ q "bytes" ++ "
    " ++ q "encoding/json" ++ "
    " ++ q "net/http" ++ "
)

func main() {
    data := map[string]interface{}{
        " ++ q "description" ++ ": " ++ q "A modern business website" ++ ",
        " ++ q "style" ++ ": " ++ q "minimal" ++ ",
        " ++ q "pages" ++ ": []string{" ++ q "home" ++ ", " ++ q "about" ++ ", " ++ q "contact" ++ "},
    }
    
    jsonData, _ := json.Marshal(data)
    
    req, _ := http.NewRequest(" ++ q "POST" ++ ",
        " ++ q "http://api.canopus.software/Aoede/generate/website" ++ ",
        bytes.NewBuffer(jsonData))
        
    req.Header.Set(" ++ q "Content-Type" ++ ", " ++ q "application/json" ++ ")
    req.Header.Set(" ++ q "Authorization" ++ ", " ++ q "Bearer YOUR_API_KEY" ++ ")
    
    client := &http.Client{}
    resp, _ := client.Do(req)
    
    var project map[string]interface{}
    json.NewDecoder(resp.Body).Decode(&project)
}").

(** [codeExamples.go.projectStatus] *)
Definition go_projectStatus : jsstring := lit (
"package main

import (
    " ++ q "encoding/json" ++ "
    " ++ q "net/http" ++ "
)

func main() {
    req, _ := http.NewRequest(" ++ q "GET" ++ ",
        " ++ q "http://api.canopus.software/Aoede/projects/PROJECT_ID/status" ++ ",
        nil)
        
    req.Header.Set(" ++ q "Authorization" ++ ", " ++ q "Bearer YOUR_API_KEY" ++ ")
    
    client := &http.Client{}
    resp, _ := client.Do(req)
    
    var status map[string]interface{}
    json.NewDecoder(resp.Body).Decode(&status)
}").

Record Examples : Type := mkExamples {
  authentication : jsstring;
  websiteGeneration : jsstring;
  projectStatus : jsstring
}.

(** [this.codeExamples]: the object literal, key by key. *)
Definition codeExamples : list (jsstring * Examples) :=
  [ (lit "curl",
     mkExamples curl_authentication curl_websiteGeneration curl_projectStatus);
    (lit "python",
     mkExamples python_authentication python_websiteGeneration python_projectStatus);
    (lit "javascript",
     mkExamples javascript_authentication javascript_websiteGeneration
                javascript_projectStatus);
    (lit "php",
     mkExamples php_authentication php_websiteGeneration php_projectStatus);
    (lit "go",
     mkExamples go_authentication go_websiteGeneration go_projectStatus) ].

(** The options of [#languageSelect] and their values. *)
Inductive Language : Type := curl | python | javascript | php | go.

Definition key (l : Language) : jsstring :=
  match l with
  | curl => lit "curl"
  | python => lit "python"
  | javascript => lit "javascript"
  | php => lit "php"
  | go => lit "go"
  end.

(** *** The panels *)

(** The five style properties [applyBasicFormatting] writes; empty when
    unset. *)
Record Style : Type := mkStyle {
  display : jsstring;
  padding : jsstring;
  background : jsstring;
  borderRadius : jsstring;
  whiteSpace : jsstring
}.

Definition no_style : Style := mkStyle [] [] [] [] [].

Definition basic_style : Style :=
  mkStyle (lit "block") (lit "1em") (lit "#f8fafc") (lit "8px") (lit "pre").

(** A [pre code] block: the text last assigned to [textContent], whether
    the highlighter rewrote its markup since, and its inline style. *)
Record CodeBlock : Type := mkCodeBlock {
  textContent : jsstring;
  highlighted : bool;
  block_style : Style
}.

Inductive Panel : Type := AuthCode | GenerateCode | StatusCode.

(** The manager's fields, the nodes it works on, and the global [Prism].
    A panel is [None] once [handleUpdateError] replaced the content of its
    parent by the error note. *)
Record State : Type := mkState {
  currentLanguage : jsstring;
  lastLanguage : jsstring;
  isLoading : bool;
  authCode : option CodeBlock;       (* #authCode *)
  generateCode : option CodeBlock;   (* #generateCode *)
  statusCode : option CodeBlock;     (* #statusCode *)
  selector_loading : bool;           (* .language-selector has class loading *)
  indicator : option jsstring;       (* data-language is this, upper-cased *)
  toasts : list jsstring;            (* .error-toast nodes, newest first *)
  prism : option Prism               (* the global Prism *)
}.

Definition with_languages (cur last : jsstring) (s : State) : State :=
  mkState cur last (isLoading s) (authCode s) (generateCode s) (statusCode s)
          (selector_loading s) (indicator s) (toasts s) (prism s).

Definition with_loading (l : bool) (s : State) : State :=
  mkState (currentLanguage s) (lastLanguage s) l (authCode s) (generateCode s)
          (statusCode s) l (indicator s) (toasts s) (prism s).

Definition with_panels (a g t : option CodeBlock) (s : State) : State :=
  mkState (currentLanguage s) (lastLanguage s) (isLoading s) a g t
          (selector_loading s) (indicator s) (toasts s) (prism s).

Definition with_indicator (i : jsstring) (s : State) : State :=
  mkState (currentLanguage s) (lastLanguage s) (isLoading s) (authCode s)
          (generateCode s) (statusCode s) (selector_loading s) (Some i)
          (toasts s) (prism s).

Definition with_toast (m : jsstring) (s : State) : State :=
  mkState (currentLanguage s) (lastLanguage s) (isLoading s) (authCode s)
          (generateCode s) (statusCode s) (selector_loading s) (indicator s)
          (m :: toasts s) (prism s).

Definition panel (p : Panel) (s : State) : option CodeBlock :=
  match p with
  | AuthCode => authCode s
  | GenerateCode => generateCode s
  | StatusCode => statusCode s
  end.

Definition with_panel (p : Panel) (b : option CodeBlock) (s : State) : State :=
  match p with
  | AuthCode => with_panels b (generateCode s) (statusCode s) s
  | GenerateCode => with_panels (authCode s) b (statusCode s) s
  | StatusCode => with_panels (authCode s) (generateCode s) b s
  end.

Definition empty_block : CodeBlock := mkCodeBlock [] false no_style.

(** The switcher of index.html as the constructor finds it, under a given
      global [Prism]. *)
Definition index_html (p : option Prism) : State :=
  mkState (lit "curl") (lit "curl") false
          (Some empty_block) (Some empty_block) (Some empty_block)
          false None [] p.

(** [document.getElementById(id).textContent = text] *)
Definition set_textContent (p : Panel) (text : jsstring) : M State unit :=
  b <- gets (panel p) ;;
  match b with
  | None => throw (mkError "TypeError" (lit "Cannot set properties of null"))
  | Some block =>
      modify (with_panel p (Some (mkCodeBlock text false (block_style block))))
  end.

Definition on_blocks (f : CodeBlock -> CodeBlock) : M State unit :=
  modify (fun s =>
    with_panels (option_map f (authCode s)) (option_map f (generateCode s))
                (option_map f (statusCode s)) s).

(** [Prism.highlightAll()]: every block gets its markup rewritten. *)
Definition highlightAll : M State unit :=
  on_blocks (fun b => mkCodeBlock (textContent b) true (block_style b)).

Definition applyBasicFormatting : M State unit :=
  on_blocks (fun b => mkCodeBlock (textContent b) (highlighted b) basic_style).

(** Each panel still in the document gives way to the error note. *)
Definition handleUpdateError : M State unit :=
  forEach [AuthCode; GenerateCode; StatusCode]
    (fun id =>
       element <- gets (panel id) ;;
       match element with
       | Some _ => modify (with_panel id None)
       | None => ret tt
       end).

Definition updateCodeExamples : M State unit :=
  language <- gets currentLanguage ;;
  match assoc language codeExamples with
  | None => ret tt
  | Some examples =>
      try_catch
        (set_textContent AuthCode (authentication examples) ;;
         set_textContent GenerateCode (websiteGeneration examples) ;;
         set_textContent StatusCode (projectStatus examples) ;;
         p <- gets prism ;;
         if highlightAll_available p
         then highlightAll
         else applyBasicFormatting)
        (fun _ => handleUpdateError)
  end.

Definition setLoading (loading : bool) : M State unit :=
  modify (with_loading loading).

Definition updateLanguageIndicator : M State unit :=
  modify (fun s => with_indicator (currentLanguage s) s).

(** The fades are timers and writes of [style.transition] and
    [style.opacity] on the code elements, which [Style] does not hold; in
    between the content is updated. *)
Definition animateLanguageChange : M State unit := updateCodeExamples.

Definition showError (message : jsstring) : M State unit :=
  modify (with_toast message).

(** The [change] listener of [#languageSelect], for [e.target.value]. *)
Definition languageSelect_change (value : jsstring) : M State unit :=
  finally
    (try_catch
       (setLoading true ;;
        modify (fun s => with_languages (currentLanguage s) (currentLanguage s) s) ;;
        modify (fun s => with_languages value (lastLanguage s) s) ;;
        animateLanguageChange ;;
        updateCodeExamples ;;
        updateLanguageIndicator)
       (fun _ =>
          modify (fun s => with_languages (lastLanguage s) (lastLanguage s) s) ;;
          showError (lit "Failed to change language")))
    (setLoading false).

(** The constructor's [init()]. *)
Definition init : M State unit :=
  updateCodeExamples ;; updateLanguageIndicator.

(** The three panels are in the document, as index.html has them. *)
Definition panels_present (s : State) : Prop :=
  forall p, panel p s <> None.

(** The store's entry for an option of the select, and the snippet of an
    entry that belongs to a panel. *)
Definition examples_of (l : Language) : Examples :=
  match l with
  | curl =>
      mkExamples curl_authentication curl_websiteGeneration curl_projectStatus
  | python =>
      mkExamples python_authentication python_websiteGeneration
                 python_projectStatus
  | javascript =>
      mkExamples javascript_authentication javascript_websiteGeneration
                 javascript_projectStatus
  | php =>
      mkExamples php_authentication php_websiteGeneration php_projectStatus
  | go =>
      mkExamples go_authentication go_websiteGeneration go_projectStatus
  end.

Definition snippet (e : Examples) (p : Panel) : jsstring :=
  match p with
  | AuthCode => authentication e
  | GenerateCode => websiteGeneration e
  | StatusCode => projectStatus e
  end.

(** A block once [updateCodeExamples] went through: the new text, then
    highlighted or, without [highlightAll], given the basic style. *)
Definition shown (p : option Prism) (text : jsstring) (b : CodeBlock)
  : CodeBlock :=
  if highlightAll_available p
  then mkCodeBlock text true (block_style b)
  else mkCodeBlock text false basic_style.

(** The manager and the selector apart from the three panels. *)
Definition same_but_panels (s s' : State) : Prop :=
  currentLanguage s' = currentLanguage s /\
  lastLanguage s' = lastLanguage s /\
  isLoading s' = isLoading s /\
  selector_loading s' = selector_loading s /\
  indicator s' = indicator s /\
  toasts s' = toasts s /\
  prism s' = prism s.

(** The page as [updateCodeExamples] leaves it. *)
Definition updated (s : State) : State := state_of (updateCodeExamples s).

(** A run of language changes, one value after the other. *)
Definition changes (values : list jsstring) (s : State) : State :=
  fold_left (fun s value => state_of (languageSelect_change value s)) values s.

End CodeExamples.

(** *** Names every object inherits

    [this.codeExamples[name]] is not [undefined] for these, although the
    literal has no such key; [assoc] reads own properties only. *)
Module Inherited.

Definition inherited_keys : list jsstring :=
  [lit "constructor"; lit "toString"; lit "toLocaleString"; lit "valueOf";
   lit "hasOwnProperty"; lit "isPrototypeOf"; lit "propertyIsEnumerable";
   lit "__proto__"; lit "__defineGetter__"; lit "__defineSetter__";
   lit "__lookupGetter__"; lit "__lookupSetter__"].

End Inherited.

(** ** assets/js/codeExamples.js: the tabs *)
Module Tabs.

Record TabButton : Type := mkTab {
  data_tab : jsstring;       (* dataset.tab *)
  tab_active : bool          (* class list holds [active] *)
}.

Record CodePanel : Type := mkPanel {
  panel_id : jsstring;       (* id *)
  panel_active : bool        (* class list holds [active] *)
}.

(** The [.tab-btn] buttons and the [.code-panel] blocks, in document
    order; ids are unique in the document. *)
Record State : Type := mkState {
  tabButtons : list TabButton;
  codePanels : list CodePanel
}.

(** The tabs of index.html. *)
Definition index_html : State :=
  mkState [mkTab (lit "authentication") true;
           mkTab (lit "website-generation") false;
           mkTab (lit "project-status") false]
          [mkPanel (lit "authentication") true;
           mkPanel (lit "website-generation") false;
           mkPanel (lit "project-status") false].

Definition tab_off (t : TabButton) : TabButton := mkTab (data_tab t) false.
Definition tab_on (t : TabButton) : TabButton := mkTab (data_tab t) true.
Definition panel_off (p : CodePanel) : CodePanel := mkPanel (panel_id p) false.
Definition panel_on (p : CodePanel) : CodePanel := mkPanel (panel_id p) true.

(** The element at position [i] changed by [f]. *)
Fixpoint at_position {A : Type} (i : nat) (f : A -> A) (l : list A) : list A :=
  match l, i with
  | [], _ => []
  | x :: l', O => f x :: l'
  | x :: l', S j => x :: at_position j f l'
  end.

(** [document.getElementById(id)?.classList.add('active')] over the
    panels: the first one with that id, if any. *)
Fixpoint activate (id : jsstring) (l : list CodePanel) : list CodePanel :=
  match l with
  | [] => []
  | p :: l' =>
      if JsString.eqb (panel_id p) id
      then panel_on p :: l'
      else p :: activate id l'
  end.

(** [handleTabClick(e)] for a click on the button at position [i]. *)
Definition handleTabClick (i : nat) (s : State) : State :=
  match nth_error (tabButtons s) i with
  | None => s
  | Some target =>
      let targetTab := data_tab target in
      let tabs := map tab_off (tabButtons s) in
      let panels := map panel_off (codePanels s) in
      mkState (at_position i tab_on tabs) (activate targetTab panels)
  end.

Definition active_tabs (s : State) : list TabButton :=
  filter tab_active (tabButtons s).
Definition active_panels (s : State) : list CodePanel :=
  filter panel_active (codePanels s).

End Tabs.

(** ** assets/js/codeExamples.js: the copy buttons *)
Module Copy.
Import CodeExamples.

(** The clipboard and the label of the button that was clicked. *)
Record Clip : Type := mkClip {
  clipboard : option jsstring;
  button_label : jsstring
}.

Section Rendered.

(** The text content of the markup a highlighter makes of a text. *)
Variable markup_text : jsstring -> jsstring.

(** [codeElement.textContent] as it reads now. *)
Definition text_of (b : CodeBlock) : jsstring :=
  if highlighted b then markup_text (textContent b) else textContent b.

(** [handleCopy(e)] for the button of panel [target]; [granted] tells
    whether [navigator.clipboard.writeText] fulfils.  The label goes back
    to [Copy] on a timer. *)
Definition handleCopy (page : State) (target : Panel) (granted : bool)
  : M Clip unit :=
  try_catch
    (text <- lift (match panel target page with
                   | None =>
                       Throw (mkError "TypeError"
                                (lit "Cannot read properties of null"))
                   | Some b => Ok (text_of b)
                   end) ;;
     (if granted
      then modify (fun c => mkClip (Some text) (button_label c))
      else throw (mkError "NotAllowedError" (lit "Write permission denied."))) ;;
     modify (fun c => mkClip (clipboard c) (lit "Copied!")))
    (fun _ => ret tt).

End Rendered.

End Copy.

(** ** assets/js/main.js: the focus trap of the modal *)
Module FocusTrap.

Record KeyEvent : Type := mkKey {
  key : jsstring;
  shiftKey : bool
}.

Definition Tab : jsstring := lit "Tab".

(** [handleTabKey(e)] over the [n] elements that [setupFocusTrap] found,
    with [document.activeElement] given by its position among them, if it
    is one of them.  [Some i]: the default is prevented and element [i]
    gets the focus; [None]: the event is left to the browser. *)
Definition handleTabKey (n : nat) (active : option nat) (e : KeyEvent)
  : option nat :=
  if negb (JsString.eqb (key e) Tab) then None
  else
    match n with
    | O => None
    | S last =>
        if shiftKey e
        then match active with
             | Some O => Some last
             | _ => None
             end
        else match active with
             | Some i => if Nat.eqb i last then Some O else None
             | None => None
             end
    end.

Section Browser.

(** Where the browser moves the focus on an unhandled Tab ([false]) or
    Shift+Tab ([true]) from position [i]; [None]: out of the modal. *)
Variable navigate : bool -> nat -> option nat.

(** The focus after a press of Tab, with Shift held or not. *)
Definition focus_after (n : nat) (active : option nat) (shift : bool)
  : option nat :=
  match handleTabKey n active (mkKey Tab shift) with
  | Some i => Some i
  | None =>
      match active with
      | Some i => navigate shift i
      | None => None
      end
  end.

Definition focus_run (n : nat) (active : option nat) (presses : list bool)
  : option nat :=
  fold_left (focus_after n) presses active.

(** The focus is on one of the [n] elements. *)
Definition inside (n : nat) (active : option nat) : Prop :=
  exists i, active = Some i /\ i < n.

End Browser.

End FocusTrap.

(** ** index.html: the highlighter installed by the page *)
Module InlinePrism.

Record Token : Type := mkToken {
  type : jsstring;
  content : jsstring
}.

(** A grammar: token names in the order of the object literal, each with
    what [pattern.exec(text)] gives as [match[0]], if it matches. *)
Definition Grammar : Type := list (jsstring * (jsstring -> option jsstring)).

(** The loop of [tokenize]: each rule is tried once; on a match the token
    is pushed and as many code units as the match is long are dropped from
    the front of the text. *)
Fixpoint tokenize_loop (g : Grammar) (text : jsstring) (tokens : list Token)
  : list Token * jsstring :=
  match g with
  | [] => (tokens, text)
  | (name, exec) :: g' =>
      match exec text with
      | Some m =>
          tokenize_loop g' (skipn (List.length m) text)
                        (tokens ++ [mkToken name m])
      | None => tokenize_loop g' text tokens
      end
  end.

(** [tokenize(text, grammar)]; the grammar is [None] when
    [this.languages] has no entry for the language. *)
Definition tokenize (text : jsstring) (grammar : option Grammar)
  : list Token :=
  let (tokens, rest) :=
    tokenize_loop (match grammar with Some g => g | None => [] end) text [] in
  match rest with
  | [] => tokens
  | _ :: _ => tokens ++ [mkToken (lit "text") rest]
  end.

Definition span (t : Token) : jsstring :=
  if JsString.eqb (type t) (lit "text") then content t
  else lit ("<span class=" ++ dq ++ "token ") ++ type t ++ lit (dq ++ ">")
       ++ content t ++ lit "</span>".

(** [stringify(tokens)] *)
Definition stringify (tokens : list Token) : jsstring :=
  List.concat (map span tokens).

(** [highlight(text, grammar, language)] *)
Definition highlight (text : jsstring) (grammar : option Grammar) : jsstring :=
  stringify (tokenize text grammar).

(** The code units of all tokens, counted. *)
Definition total_length (tokens : list Token) : nat :=
  list_sum (map (fun t => List.length (content t)) tokens).

(** A matcher gives back a piece of the text it was given: no longer than
    the text. *)
Definition within (g : Grammar) : Prop :=
  forall name exec, In (name, exec) g ->
    forall text m, exec text = Some m -> List.length m <= List.length text.

End InlinePrism.

(** ** What an element reads after its [innerHTML] was written

    The part of the HTML tokenizer that the scripts' strings exercise.  In
    the data state a [<] followed by [?] opens a bogus comment, which ends
    at the next [>] (or at the end of the input) and leaves no text; a [<]
    followed by anything but a letter, [!], [/] or [?] is text.  Tags,
    markup declarations, character references, carriage returns and NUL
    are outside this model: [html_text] gives [None] for them. *)
Module Html.

Definition lt_sign : N := 60.       (* < *)
Definition gt_sign : N := 62.       (* > *)
Definition ampersand : N := 38.     (* & *)
Definition quotation : N := 34.     (* the double quote *)
Definition question : N := 63.      (* ? *)
Definition exclamation : N := 33.   (* ! *)
Definition solidus : N := 47.       (* / *)
Definition carriage_return : N := 13.

Definition is_letter (c : N) : bool :=
  ((N.leb 65 c && N.leb c 90) || (N.leb 97 c && N.leb c 122))%N.

Inductive Mode : Type := Data | BogusComment.

(** The text content of the fragment that [element.innerHTML = s] leaves
    under the element. *)
Fixpoint scan (m : Mode) (s : jsstring) : option jsstring :=
  match s with
  | [] => Some []
  | c :: rest =>
      match m with
      | BogusComment =>
          if N.eqb c gt_sign then scan Data rest else scan BogusComment rest
      | Data =>
          if N.eqb c lt_sign then
            match rest with
            | [] => Some [lt_sign]
            | d :: _ =>
                if N.eqb d question then scan BogusComment rest
                else if is_letter d || N.eqb d exclamation || N.eqb d solidus
                     then None
                     else option_map (cons lt_sign) (scan Data rest)
            end
          else if N.eqb c ampersand || N.eqb c carriage_return || N.eqb c 0
               then None
               else option_map (cons c) (scan Data rest)
      end
  end.

Definition html_text (s : jsstring) : option jsstring := scan Data s.

(** A code unit that stands for itself in text and inside a double-quoted
    attribute value. *)
Definition html_safe (c : N) : Prop :=
  c <> lt_sign /\ c <> ampersand /\ c <> quotation /\
  c <> carriage_return /\ c <> 0%N.

End Html.

(** A value that is no object and no array: [undefined], [null], a
    boolean, a number or a string.  [value_to_string] is ToString on
    these. *)
Module Primitive.

Definition primitive (v : Js.value) : Prop :=
  match v with
  | Some (JArr _) => False
  | Some (JObj _) => False
  | _ => True
  end.

End Primitive.

(** ** What the preview pane reads *)
Module PreviewPane.
Import Playground.

Section Rendered.

(** [JSON.stringify(data, null, 2)] *)
Variable stringify : json -> jsstring.

(** The text content of the markup that [Prism.highlightElement] makes of
    a text. *)
Variable markup_text : jsstring -> jsstring.

(** [#previewCode] as it reads: the JSON text that was written, or what the
    highlighter made of it. *)
Definition pane_reads (s : State) : option jsstring :=
  option_map
    (fun data =>
       if previewCode_highlighted s
       then markup_text (stringify data)
       else stringify data)
    (previewCode s).

End Rendered.

End PreviewPane.

(** ** What a code panel reads under the page's highlighter

    The panels carry the class [language-bash], for which the highlighter
    of index.html has no grammar; its [highlightElement] writes
    [highlight(text, undefined)] to [innerHTML]. *)
Module PanelDisplay.
Import CodeExamples.


End PanelDisplay.

(* ================================================================== *)
(** * Part II: properties *)
(* ================================================================== *)

(** ** Strings *)

Lemma jsstring_eqb_eq (a b : jsstring) : JsString.eqb a b = true <-> a = b.
Proof.
  revert b; induction a as [|x a IH]; intros [|y b]; simpl;
    try (split; [discriminate | discriminate]); try tauto.
  rewrite andb_true_iff, N.eqb_eq, IH.
  split; [intros [-> ->]; reflexivity | intros H; inversion H; auto].
Qed.

Lemma jsstring_eqb_refl (a : jsstring) : JsString.eqb a a = true.
Proof. apply jsstring_eqb_eq; reflexivity. Qed.

Lemma jsstring_eqb_neq (a b : jsstring) : JsString.eqb a b = false <-> a <> b.
Proof.
  rewrite <- jsstring_eqb_eq. destruct (JsString.eqb a b); split; congruence.
Qed.

(** ** The matcher decides the language *)
Module RegexFacts.
Import Regex.

Lemma cat_inv (r1 r2 : re) (s : jsstring) :
  Matches (Cat r1 r2) s <->
  exists s1 s2, s = s1 ++ s2 /\ Matches r1 s1 /\ Matches r2 s2.
Proof.
  split.
  - intros H. inversion H; subst. do 2 eexists. repeat split; eassumption.
  - intros (s1 & s2 & -> & H1 & H2). constructor; assumption.
Qed.

Lemma alt_inv (r1 r2 : re) (s : jsstring) :
  Matches (Alt r1 r2) s <-> Matches r1 s \/ Matches r2 s.
Proof.
  split.
  - intros H. inversion H; subst; auto.
  - intros [H|H]; [apply MAltL | apply MAltR]; exact H.
Qed.

Lemma lit_inv (c : N) (s : jsstring) : Matches (Atom (Lit c)) s <-> s = [c].
Proof.
  split.
  - intros H. inversion H as [|a d Hd| | | | |]; subst. simpl in Hd.
    apply N.eqb_eq in Hd. subst; reflexivity.
  - intros ->. constructor. simpl. apply N.eqb_refl.
Qed.

Lemma nullable_spec (r : re) : nullable r = true <-> Matches r [].
Proof.
  induction r as [| |a|r1 IH1 r2 IH2|r1 IH1 r2 IH2|r IH]; simpl.
  - split; [discriminate | intros H; inversion H].
  - split; [constructor | reflexivity].
  - split; [discriminate | intros H; inversion H].
  - rewrite andb_true_iff, IH1, IH2, cat_inv. split.
    + intros [H1 H2]. exists [], []. auto.
    + intros (s1 & s2 & E & H1 & H2). symmetry in E.
      apply app_eq_nil in E as [-> ->]. auto.
  - rewrite orb_true_iff, IH1, IH2, alt_inv. tauto.
  - split; [constructor | reflexivity].
Qed.

(** A non-empty match of [r*] starts with a non-empty match of [r]. *)
Lemma star_cons_inv (r : re) (c : N) (s : jsstring) :
  Matches (Star r) (c :: s) ->
  exists s1 s2, s = s1 ++ s2 /\ Matches r (c :: s1) /\ Matches (Star r) s2.
Proof.
  intros H. remember (Star r) as r' eqn:Er. remember (c :: s) as w eqn:Ew.
  revert s Ew.
  induction H as [| | | | | |r0 s1 s2 H1 _ H2 IH2]; intros t Ew;
    try discriminate.
  inversion Er; subst r0.
  destruct s1 as [|d s1]; simpl in Ew.
  - apply IH2; auto.
  - inversion Ew; subst. exists s1, s2. auto.
Qed.

Lemma deriv_spec (r : re) :
  forall c s, Matches (deriv c r) s <-> Matches r (c :: s).
Proof.
  induction r as [| |a|r1 IH1 r2 IH2|r1 IH1 r2 IH2|r IH]; intros c s; simpl.
  - split; intros H; inversion H.
  - split; intros H; inversion H.
  - destruct (accepts a c) eqn:Ea; split; intros H; inversion H; subst.
    + constructor; exact Ea.
    + constructor.
    + congruence.
  - assert (C : Matches (Cat (deriv c r1) r2) s <->
                exists s1 s2, s = s1 ++ s2 /\ Matches r1 (c :: s1)
                              /\ Matches r2 s2).
    { rewrite cat_inv. split; intros (s1 & s2 & E & H1 & H2);
        exists s1, s2; (split; [exact E|split; [apply IH1; exact H1|exact H2]]). }
    assert (D : Matches (Cat r1 r2) (c :: s) <->
                (Matches r1 [] /\ Matches r2 (c :: s)) \/
                exists s1 s2, s = s1 ++ s2 /\ Matches r1 (c :: s1)
                              /\ Matches r2 s2).
    { rewrite cat_inv. split.
      - intros (s1 & s2 & E & H1 & H2). destruct s1 as [|d s1]; simpl in E.
        + subst s2. left; auto.
        + inversion E; subst. right. exists s1, s2. auto.
      - intros [[H1 H2]|(s1 & s2 & E & H1 & H2)].
        + exists [], (c :: s). auto.
        + exists (c :: s1), s2. subst s. auto. }
    rewrite D. destruct (nullable r1) eqn:En.
    + rewrite alt_inv, C, IH2. apply nullable_spec in En. tauto.
    + rewrite C. split; [tauto|].
      intros [[H1 _]|H]; [|exact H].
      apply nullable_spec in H1. congruence.
  - rewrite !alt_inv, IH1, IH2. tauto.
  - rewrite cat_inv. split.
    + intros (s1 & s2 & -> & H1 & H2).
      apply IH in H1. apply (MStarCons _ (c :: s1) s2 H1 H2).
    + intros H. apply star_cons_inv in H as (s1 & s2 & -> & H1 & H2).
      exists s1, s2. split; [reflexivity|]. split; [apply IH; exact H1 | exact H2].
Qed.

Theorem test_spec (s : jsstring) :
  forall r, test r s = true <-> Matches r s.
Proof.
  induction s as [|c s IH]; intros r; simpl.
  - apply nullable_spec.
  - rewrite IH. apply deriv_spec.
Qed.

(** [x*] and [x+] over a single class: runs of accepted code units. *)
Lemma star_atom (a : atom) (s : jsstring) :
  Matches (Star (Atom a)) s <-> Forall (fun c => accepts a c = true) s.
Proof.
  split.
  - intros H. remember (Star (Atom a)) as r eqn:Er.
    induction H as [| | | | | |r0 s1 s2 H1 _ H2 IH2]; try discriminate.
    + constructor.
    + inversion Er; subst r0. inversion H1; subst.
      constructor; [assumption | apply IH2; reflexivity].
  - induction 1 as [|c s Hc _ IH].
    + constructor.
    + apply (MStarCons _ [c] s); [constructor; exact Hc | exact IH].
Qed.

Lemma plus_atom (a : atom) (s : jsstring) :
  Matches (Plus (Atom a)) s <->
  s <> [] /\ Forall (fun c => accepts a c = true) s.
Proof.
  unfold Plus. rewrite cat_inv. split.
  - intros (s1 & s2 & -> & H1 & H2).
    inversion H1; subst. apply star_atom in H2. simpl.
    split; [discriminate | constructor; assumption].
  - intros [Hne Hall]. destruct s as [|c s]; [congruence|].
    inversion Hall; subst. exists [c], s.
    split; [reflexivity|].
    split; [constructor; assumption | apply star_atom; assumption].
Qed.

End RegexFacts.

(** ** The key-request form *)
Module KeyRequestFacts.
Import Regex RegexFacts KeyRequest.

Lemma accepts_not_space_or_at (c : N) :
  accepts (NoneOf true [at_sign]) c = true <-> plain c.
Proof.
  unfold plain. simpl. rewrite andb_true_iff, !negb_true_iff, orb_false_r.
  rewrite N.eqb_neq. tauto.
Qed.

Lemma plus_plain (s : jsstring) :
  Matches (Plus not_space_or_at) s <-> s <> [] /\ Forall plain s.
Proof.
  unfold not_space_or_at. rewrite plus_atom.
  split; intros [Hne Hall]; (split; [exact Hne|]);
    eapply Forall_impl; try exact Hall; intros c; apply accepts_not_space_or_at.
Qed.

(** The pattern accepts exactly the addresses the words describe. *)
Lemma email_pattern_spec (e : jsstring) :
  Matches email_pattern e <-> well_formed_email e.
Proof.
  unfold email_pattern, well_formed_email. split.
  - intros H.
    apply cat_inv in H as (l & r1 & -> & Hl & H).
    apply cat_inv in H as (a & r2 & -> & Ha & H).
    apply cat_inv in H as (d & r3 & -> & Hd & H).
    apply cat_inv in H as (p & t & -> & Hp & Ht).
    apply lit_inv in Ha. apply lit_inv in Hp. subst a p.
    apply plus_plain in Hl as [? ?]. apply plus_plain in Hd as [? ?].
    apply plus_plain in Ht as [? ?].
    exists l, d, t. repeat split; assumption.
  - intros (l & d & t & -> & Hl & Hd & Ht & Al & Ad & At).
    apply MCat; [apply plus_plain; auto|].
    apply MCat; [apply lit_inv; reflexivity|].
    apply MCat; [apply plus_plain; auto|].
    apply MCat; [apply lit_inv; reflexivity|].
    apply plus_plain; auto.
Qed.

Lemma isValidEmail_spec (e : jsstring) :
  isValidEmail e = true <-> well_formed_email e.
Proof.
  unfold isValidEmail. rewrite test_spec. apply email_pattern_spec.
Qed.

Lemma validateForm_eq (s : State) :
  validateForm s =
  (validated s,
   Ok (isValidEmail (value (email s))
       && negb (Nat.ltb (JsString.length (value (company s))) 2))).
Proof.
  unfold validateForm, validated, showFieldError_email, showFieldError_company,
    bind, gets, modify, ret.
  destruct (isValidEmail (value (email s)));
    destruct (Nat.ltb (JsString.length (value (company s))) 2); reflexivity.
Qed.

Lemma value_clear_group (f : Field) : value (clear_group f) = value f.
Proof. unfold clear_group. destruct (group_error f); reflexivity. Qed.

Lemma validateForm_outcome (s : State) :
  outcome_of (validateForm s) = Ok true <->
  isValidEmail (value (email s)) = true /\
  2 <= JsString.length (value (company s)).
Proof.
  rewrite validateForm_eq. unfold outcome_of; simpl.
  destruct (isValidEmail (value (email s))); simpl;
    destruct (Nat.ltb_spec (JsString.length (value (company s))) 2); simpl;
    split; try congruence; try tauto; intros [? ?]; try congruence; lia.
Qed.

(** C8: the local validation accepts a pair exactly when the email matches
    [/^[^\s@]+@[^\s@]+\.[^\s@]+$/] and the company name has at least two
    code units; the pattern means a non-empty local part, one [@], a
    non-empty domain, a dot and a non-empty suffix, none with white space or
    a further [@]; a company name of length two passes, one of length one
    does not. *)
Theorem validateForm_accepts_iff :
  (forall s : State,
      outcome_of (validateForm s) = Ok true <->
      Matches email_pattern (value (email s)) /\
      2 <= JsString.length (value (company s))) /\
  (forall e : jsstring, Matches email_pattern e <-> well_formed_email e) /\
  (forall s : State,
      well_formed_email (value (email s)) ->
      JsString.length (value (company s)) = 2 ->
      outcome_of (validateForm s) = Ok true) /\
  (forall s : State,
      JsString.length (value (company s)) = 1 ->
      outcome_of (validateForm s) = Ok false).
Proof.
  split; [|split; [|split]].
  - intros s. rewrite validateForm_outcome. unfold isValidEmail.
    rewrite test_spec. reflexivity.
  - apply email_pattern_spec.
  - intros s He Hc. apply validateForm_outcome.
    split; [apply isValidEmail_spec; exact He | lia].
  - intros s Hc. rewrite validateForm_eq. unfold outcome_of; simpl.
    rewrite Hc. simpl. rewrite andb_false_r. reflexivity.
Qed.

Lemma clearErrors_eq (s : State) :
  clearErrors s =
  (with_company (clear_group (company s))
     (with_email (clear_group (email s)) s), Ok tt).
Proof. reflexivity. Qed.

(** The handler is its two halves, one after the other. *)
Lemma handleApiKeyGeneration_split (o : FetchOutcome) (s : State) :
  handleApiKeyGeneration o s =
  (pending <- handleApiKeyGeneration_begin ;;
   if pending then handleApiKeyGeneration_resume o else ret tt) s.
Proof.
  unfold handleApiKeyGeneration, handleApiKeyGeneration_begin,
    handleApiKeyGeneration_resume, bind.
  rewrite clearErrors_eq, validateForm_eq.
  destruct (isValidEmail _ && negb _); reflexivity.
Qed.

(** C2: when the email fails the format check or the company name is
    shorter than two, the submission handler marks the offending fields
    (and only those), ends at once, and issues no request: the log of fetch
    calls is as it was, and no fetch is left pending. *)
Theorem invalid_submission_issues_no_request
    (s : State) (o : FetchOutcome) :
  isValidEmail (value (email s)) = false \/
  JsString.length (value (company s)) < 2 ->
  let s' := state_of (handleApiKeyGeneration o s) in
  requests s' = requests s /\
  outcome_of (handleApiKeyGeneration o s) = Ok tt /\
  handleApiKeyGeneration_begin s = (s', Ok false) /\
  (isValidEmail (value (email s)) = false ->
     group_error (email s') = true /\
     In invalid_email_message (group_messages (email s'))) /\
  (JsString.length (value (company s)) < 2 ->
     group_error (company s') = true /\
     In short_company_message (group_messages (company s'))) /\
  (isValidEmail (value (email s)) = true ->
     email s' = clear_group (email s)) /\
  (2 <= JsString.length (value (company s)) ->
     company s' = clear_group (company s)).
Proof.
  intros Hbad.
  set (s0 := with_company (clear_group (company s))
               (with_email (clear_group (email s)) s)).
  assert (He : value (email s0) = value (email s))
    by (simpl; apply value_clear_group).
  assert (Hc : value (company s0) = value (company s))
    by (simpl; apply value_clear_group).
  assert (Hv : validateForm s0 = (validated s0, Ok false)).
  { rewrite validateForm_eq. f_equal. f_equal. rewrite He, Hc.
    destruct Hbad as [H|H]; [rewrite H; reflexivity|].
    apply Nat.ltb_lt in H. rewrite H. apply andb_false_r. }
  assert (Hrun : handleApiKeyGeneration o s = (validated s0, Ok tt)).
  { unfold handleApiKeyGeneration, bind. rewrite clearErrors_eq.
    fold s0. rewrite Hv. reflexivity. }
  assert (Hbegin : handleApiKeyGeneration_begin s = (validated s0, Ok false)).
  { unfold handleApiKeyGeneration_begin, bind. rewrite clearErrors_eq.
    fold s0. rewrite Hv. reflexivity. }
  rewrite Hrun. unfold state_of, outcome_of; simpl.
  split; [|split; [reflexivity|split; [exact Hbegin|]]].
  - unfold validated.
    destruct (negb (isValidEmail (value (email s0))));
      destruct (Nat.ltb (JsString.length (value (company s0))) 2);
      reflexivity.
  - unfold validated. rewrite He, Hc.
    destruct (isValidEmail (value (email s))) eqn:E1; simpl;
      destruct (Nat.ltb_spec (JsString.length (value (company s))) 2);
      simpl; repeat split; intros; try congruence; try lia;
      try (apply in_or_app; right; left; reflexivity).
Qed.

(** The claim's hypothesis is met by an address without a dot. *)
Lemma invalid_submission_issues_no_request_witness :
  let s := opened (lit "user@localhost") (lit "Acme") in
  let s' := state_of (handleApiKeyGeneration
                        (NetworkFailure (mkError "TypeError" (lit "Failed to fetch"))) s) in
  requests s' = [] /\ group_error (email s') = true.
Proof.
  pose proof (invalid_submission_issues_no_request
                (opened (lit "user@localhost") (lit "Acme"))
                (NetworkFailure (mkError "TypeError" (lit "Failed to fetch")))
                (or_introl eq_refl)) as H.
  simpl in H. destruct H as (H1 & _ & _ & H4 & _).
  split; [exact H1 | exact (proj1 (H4 eq_refl))].
Defined.

(** *** Nothing holds a second submission back *)

Lemma begin_submit_disabled (s : State) :
  submit_disabled (state_of (handleApiKeyGeneration_begin s)) =
  submit_disabled s.
Proof.
  unfold handleApiKeyGeneration_begin, bind.
  rewrite clearErrors_eq, validateForm_eq. unfold validated, state_of.
  destruct (isValidEmail _); destruct (Nat.ltb _ 2); reflexivity.
Qed.

Lemma resume_submit_disabled (o : FetchOutcome) (s : State) :
  submit_disabled (state_of (handleApiKeyGeneration_resume o s)) =
  submit_disabled s.
Proof.
  unfold handleApiKeyGeneration_resume, finally, try_catch, after_fetch,
    on_error, showErrorMessage, showSuccessMessage, setFormLoading, bind,
    lift, throw, gets, modify, ret, state_of.
  destruct o as [e|[k [d|e]]]; cbn [settle json_body ok negb];
    try destruct k; cbn [negb];
    try (destruct (get d _)); cbn;
    destruct (form_attached s); reflexivity.
Qed.

(** No handler of the form writes the submit button's [disabled]. *)
Lemma step_submit_disabled (x : Session) (ev : Event) :
  submit_disabled (page (step x ev)) = submit_disabled (page x).
Proof.
  destruct ev as [|o]; unfold step.
  - destruct (form_attached (page x) && negb (submit_disabled (page x)));
      [|reflexivity].
    pose proof (begin_submit_disabled (page x)) as H. unfold state_of in H.
    destruct (handleApiKeyGeneration_begin (page x)) as [s [[|]|e]];
      exact H.
  - destruct (in_flight x); [reflexivity|].
    pose proof (resume_submit_disabled o (page x)) as H. unfold state_of in H.
    destruct (handleApiKeyGeneration_resume o (page x)) as [s r]. exact H.
Qed.

(** A valid form takes every submit: each one adds a pending fetch. *)
Lemma valid_submit_adds_request (x : Session) :
  form_attached (page x) = true ->
  submit_disabled (page x) = false ->
  isValidEmail (value (email (page x))) = true ->
  2 <= JsString.length (value (company (page x))) ->
  in_flight (step x Submit) = S (in_flight x) /\
  List.length (requests (page (step x Submit))) =
    S (List.length (requests (page x))).
Proof.
  intros Ha Hd He Hc. unfold step. rewrite Ha, Hd. cbn [andb negb].
  unfold handleApiKeyGeneration_begin, bind.
  rewrite clearErrors_eq, validateForm_eq.
  cbn [email company with_email with_company value].
  rewrite !value_clear_group, He.
  apply Nat.ltb_ge in Hc. rewrite Hc. cbn [andb negb].
  unfold validated. cbn [email company with_email with_company value].
  rewrite !value_clear_group, He, Hc. cbn.
  split; reflexivity.
Qed.

End KeyRequestFacts.

(** ** The playground *)
Module PlaygroundFacts.
Import Playground.

(** The loop of [getSelectedPages], for any array built so far. *)
Lemma push_selected (l : list Checkbox) :
  forall pages,
    fold_left
      (fun pages checkbox =>
         if negb (JsString.eqb (cb_value checkbox) home)
         then pages ++ [cb_value checkbox]
         else pages)
      l pages
    = pages ++ filter (fun v => negb (JsString.eqb v home)) (map cb_value l).
Proof.
  induction l as [|c l IH]; intros pages; simpl.
  - rewrite app_nil_r. reflexivity.
  - rewrite IH. destruct (negb (JsString.eqb (cb_value c) home)).
    + rewrite <- app_assoc. reflexivity.
    + reflexivity.
Qed.

Lemma getSelectedPages_eq (s : State) :
  getSelectedPages s =
  home :: filter (fun v => negb (JsString.eqb v home))
                 (map cb_value (filter cb_checked (checkboxes s))).
Proof. unfold getSelectedPages. rewrite push_selected. reflexivity. Qed.

Lemma home_not_pushed (l : list jsstring) :
  ~ In home (filter (fun v => negb (JsString.eqb v home)) l).
Proof.
  intros H. apply filter_In in H as [_ H].
  rewrite jsstring_eqb_refl in H. discriminate.
Qed.

(** C9: whatever the boxes, the array starts with ['home'] and holds it
    once; a checked box whose value is ['home'] adds nothing to it. *)
Theorem home_first_and_once (s : State) :
  hd_error (getSelectedPages s) = Some home /\
  count_occ JsString.eq_dec (getSelectedPages s) home = 1 /\
  (forall before after : list Checkbox,
     getSelectedPages
       (with_checkboxes (before ++ mkCheckbox home true :: after) s) =
     getSelectedPages (with_checkboxes (before ++ after) s)).
Proof.
  rewrite getSelectedPages_eq. split; [reflexivity|]. split.
  - rewrite count_occ_cons_eq by reflexivity. f_equal.
    apply count_occ_not_In. apply home_not_pushed.
  - intros before after. rewrite !getSelectedPages_eq. simpl.
    rewrite !filter_app, !map_app, !filter_app. simpl.
    change (JsString.eqb home home) with true. reflexivity.
Qed.

(** Everything that follows the call of [fetch] leaves the log alone. *)
Lemma updatePreviewCode_requests (d : json) (s : State) :
  requests (state_of (updatePreviewCode d s)) = requests s.
Proof.
  unfold updatePreviewCode, bind, modify, gets, throw, state_of. simpl.
  destruct (prism s) as [h|]; [destruct (has_highlightElement h)|]; reflexivity.
Qed.

Lemma before_fetch_eq (s : State) :
  before_fetch s =
  (with_request (generate_request s)
     (with_previewLoading true (with_runButton true (lit "Generating...") s)),
   Ok tt).
Proof. reflexivity. Qed.

Lemma at_last_eq (s : State) :
  at_last s =
  (with_previewLoading false (with_runButton false (lit "Generate Website") s),
   Ok tt).
Proof. reflexivity. Qed.

Lemma after_fetch_requests (o : FetchOutcome) (s : State) :
  requests (state_of (after_fetch o s)) = requests s.
Proof.
  unfold after_fetch, bind, lift, state_of.
  destruct o as [e|[k [d|e]]]; simpl; try reflexivity.
  destruct k.
  - pose proof (updatePreviewCode_requests d s) as H. unfold state_of in H.
    destruct (updatePreviewCode d s) as [s1 [[]|e]]; simpl in *; auto.
    destruct (get d _) as [v|e]; simpl; auto.
    destruct (truthy v); simpl; auto.
  - destruct (get d _); reflexivity.
Qed.

Lemma resume_requests (o : FetchOutcome) (s : State) :
  requests (state_of (generateWebsite_resume o s)) = requests s.
Proof.
  unfold generateWebsite_resume, finally, try_catch, on_error, showError.
  pose proof (after_fetch_requests o s) as H. unfold state_of in *.
  destruct (after_fetch o s) as [s1 [[]|e]]; cbn [fst snd] in *.
  - rewrite at_last_eq. simpl. exact H.
  - pose proof (updatePreviewCode_requests (error_object (message e)) s1) as H1.
    unfold state_of in H1.
    destruct (updatePreviewCode (error_object (message e)) s1) as [s2 r].
    rewrite at_last_eq. simpl in *. congruence.
Qed.

(** The handler is its two halves, one after the other. *)
Lemma generateWebsite_split (o : FetchOutcome) (s : State) :
  generateWebsite o s =
  generateWebsite_resume o (state_of (generateWebsite_begin s)).
Proof.
  unfold generateWebsite, generateWebsite_resume, generateWebsite_begin,
    finally, try_catch, bind.
  rewrite before_fetch_eq. reflexivity.
Qed.

(** C3: whatever the boxes, the request a submission sends carries a
    [pages] array that holds ['home']. *)
Theorem submitted_pages_include_home (s : State) (o : FetchOutcome) :
  exists request pages,
    requests (state_of (generateWebsite o s)) = request :: requests s /\
    body request =
      JObj [(lit "description", JStr (description s));
            (lit "style", JStr (style s));
            (lit "pages", JArr (map JStr pages))] /\
    pages = getSelectedPages s /\
    In home pages.
Proof.
  exists (generate_request s), (getSelectedPages s).
  split; [|split; [reflexivity|split; [reflexivity|]]].
  - rewrite generateWebsite_split, resume_requests. reflexivity.
  - rewrite getSelectedPages_eq. left; reflexivity.
Qed.

Lemma updatePreviewCode_ok (d : json) (s : State) :
  highlightElement_available (prism s) = true ->
  updatePreviewCode d s =
  (with_previewCode (Some d) true (with_previewCode (Some d) false s), Ok tt).
Proof.
  unfold updatePreviewCode, bind, modify, gets, highlightElement_available.
  simpl. destruct (prism s) as [h|]; [|discriminate].
  intros ->. reflexivity.
Qed.


(** [updatePreviewCode], by whether the global highlighter has
    [highlightElement]. *)
Lemma updatePreviewCode_cases (d : json) (s : State) :
  if highlightElement_available (prism s)
  then updatePreviewCode d s =
       (with_previewCode (Some d) true (with_previewCode (Some d) false s),
        Ok tt)
  else exists e, updatePreviewCode d s =
                 (with_previewCode (Some d) false s, Throw e).
Proof.
  unfold updatePreviewCode, bind, modify, gets, throw,
    highlightElement_available.
  cbn [prism with_previewCode].
  destruct (prism s) as [h|]; [destruct (has_highlightElement h)|];
    try reflexivity; eexists; reflexivity.
Qed.




(** C10: after a reset the description is the default text (not empty),
    the style is ['modern'], and a box is checked exactly when its value is
    ['home']; the boxes themselves are the same as before.  With the
    page's highlighter the reset ends normally. *)
Theorem reset_restores_defaults (s : State) :
  let s' := state_of (resetPlayground s) in
  description s' = default_description /\
  default_description <> [] /\
  style s' = modern /\
  map cb_value (checkboxes s') = map cb_value (checkboxes s) /\
  (forall c, In c (checkboxes s') ->
     (cb_checked c = true <-> cb_value c = home)) /\
  (highlightElement_available (prism s) = true ->
     outcome_of (resetPlayground s) = Ok tt).
Proof.
  unfold resetPlayground, setInitialState, updatePreviewCode, bind, modify,
    gets, throw, state_of, outcome_of, highlightElement_available.
  cbn [fst snd].
  destruct (prism s) as [h|] eqn:Ep;
    cbn [prism with_previewCode with_description with_checkboxes with_style];
    rewrite ?Ep; [destruct (has_highlightElement h)|]; cbn;
    (split; [reflexivity|]; split; [discriminate|]; split; [reflexivity|];
     split; [rewrite map_map; reflexivity|]; split;
     [|try reflexivity; try discriminate]);
    intros c Hc; apply in_map_iff in Hc as (c0 & <- & _); cbn;
    apply jsstring_eqb_eq.
Qed.

(** *** One request at a time *)

Lemma resetPlayground_runButton (s : State) :
  runButton_disabled (state_of (resetPlayground s)) = runButton_disabled s.
Proof.
  unfold resetPlayground, setInitialState, updatePreviewCode, bind, modify,
    gets, throw, state_of.
  cbn [fst snd prism with_previewCode with_description with_checkboxes
       with_style].
  destruct (prism s) as [h|]; [destruct (has_highlightElement h)|];
    reflexivity.
Qed.

Lemma step_guarded (x : Session) (ev : Event) :
  guarded x -> guarded (step x ev).
Proof.
  unfold guarded. intros G. destruct ev as [| |o]; unfold step.
  - destruct (runButton_disabled (page x)) eqn:D;
      [rewrite D; exact G|].
    unfold generateWebsite_begin. rewrite before_fetch_eq.
    destruct G as [G|[_ G]]; [|congruence].
    right. cbn. rewrite G. auto.
  - pose proof (resetPlayground_runButton (page x)) as R.
    unfold state_of in R.
    destruct (resetPlayground (page x)) as [s r]. cbn in *.
    rewrite R. exact G.
  - destruct (in_flight x) as [|n] eqn:E; [left; exact E|].
    destruct (generateWebsite_resume o (page x)) as [s r]. cbn.
    destruct G as [G|[G _]]; [discriminate|].
    left. congruence.
Qed.

(** X5: on the playground at most one fetch is pending, and a click on the run
    button while one is pending changes nothing. *)
Lemma playground_one_request_at_a_time (s : State) (evs : list Event) :
  let x := run (start s) evs in
  in_flight x <= 1 /\
  (in_flight x = 1 -> step x ClickRun = x).
Proof.
  assert (G : guarded (run (start s) evs)).
  { unfold run. generalize (start s), (or_introl eq_refl : guarded (start s)).
    induction evs as [|ev evs IH]; intros x Gx; simpl; [exact Gx|].
    apply IH. apply step_guarded. exact Gx. }
  cbv zeta. destruct G as [G|[G D]]; rewrite G.
  - split; [lia | discriminate].
  - split; [lia|]. intros _. unfold step. rewrite D. reflexivity.
Qed.

End PlaygroundFacts.

(** ** Re-submission and error messages across the two controllers *)
Module ControllerFacts.

(** C4: the key-request form goes on taking submissions while its fetch is
    pending.  [setFormLoading] marks the button with a class, a spinner and
    a label and leaves [disabled] alone, so a second submit of a valid form
    issues a second request: two are in flight. *)
Theorem key_request_resubmission_issues_second_request :
  let x := KeyRequest.run
             (KeyRequest.start (lit "you@company.com") (lit "Acme"))
             [KeyRequest.Submit; KeyRequest.Submit] in
  KeyRequest.in_flight x = 2 /\
  List.length (KeyRequest.requests (KeyRequest.page x)) = 2 /\
  KeyRequest.submit_loading (KeyRequest.page x) = true /\
  KeyRequest.submit_disabled (KeyRequest.page x) = false.
Proof. vm_compute. repeat split; reflexivity. Qed.

(** What the handlers surface is [detail]: a non-empty string under that
    key is shown as it is. *)
Lemma playground_surfaces_detail
    (s : Playground.State) (fields : list (jsstring * json)) (d : jsstring) :
  highlightElement_available (Playground.prism s) = true ->
  assoc (lit "detail") fields = Some (JStr d) ->
  d <> [] ->
  Playground.previewCode
    (state_of (Playground.generateWebsite
                 (Responded (mkResponse false (Ok (JObj fields)))) s)) =
  Some (Playground.error_object d).
Proof.
  intros Hp Hd Hne.
  rewrite PlaygroundFacts.generateWebsite_split.
  unfold Playground.generateWebsite_begin.
  rewrite PlaygroundFacts.before_fetch_eq. unfold state_of; cbn [fst].
  set (s1 := Playground.with_request _ _).
  unfold Playground.generateWebsite_resume, finally, try_catch,
    Playground.after_fetch, bind, lift, throw, Playground.on_error,
    Playground.showError.
  cbn [settle json_body ok get negb]. rewrite Hd.
  unfold or_else, truthy.
  destruct (JsString.eqb d []) eqn:E;
    [apply jsstring_eqb_eq in E; congruence|].
  cbn [negb new_Error to_string message].
  rewrite PlaygroundFacts.updatePreviewCode_ok by exact Hp.
  rewrite PlaygroundFacts.at_last_eq. reflexivity.
Qed.

(** C5: a non-success response that carries the documented body -- with a
    [message] and no [detail] -- is shown with the handlers' fixed texts,
    on the playground and on the key-request form; the [message] of the
    body is not what the user sees. *)
Theorem documented_message_is_not_surfaced :
  let o := Responded (mkResponse false (Ok documented_error)) in
  Playground.previewCode
    (state_of (Playground.generateWebsite o
                 (Playground.index_html (Some index_html_Prism)))) =
    Some (Playground.error_object (lit "Generation failed")) /\
  KeyRequest.banners
    (state_of (KeyRequest.handleApiKeyGeneration o
                 (KeyRequest.opened (lit "you@company.com") (lit "Acme")))) =
    [lit "Failed to generate API key"] /\
  get documented_error (lit "message") =
    Ok (Some (JStr (lit "Invalid request parameters"))).
Proof. vm_compute. repeat split; reflexivity. Qed.

End ControllerFacts.

(** ** The example switcher *)
Module CodeExamplesFacts.
Import CodeExamples.

Lemma assoc_key (l : Language) :
  assoc (key l) codeExamples = Some (examples_of l).
Proof. destruct l; reflexivity. Qed.


(** With the three panels in place the update goes through. *)
Lemma updateCodeExamples_present
    (s : State) (l : Language) (a g t : CodeBlock) :
  currentLanguage s = key l ->
  authCode s = Some a -> generateCode s = Some g -> statusCode s = Some t ->
  updateCodeExamples s =
  (with_panels
     (Some (shown (prism s) (authentication (examples_of l)) a))
     (Some (shown (prism s) (websiteGeneration (examples_of l)) g))
     (Some (shown (prism s) (projectStatus (examples_of l)) t)) s,
   Ok tt).
Proof.
  intros Hl Ha Hg Ht.
  unfold updateCodeExamples, bind, gets. rewrite Hl, assoc_key.
  unfold try_catch, set_textContent, bind, gets, modify, highlightAll,
    applyBasicFormatting, on_blocks, modify, shown.
  cbn [panel with_panel with_panels authCode generateCode statusCode prism
       option_map block_style textContent highlighted].
  rewrite Ha. cbn [panel with_panel with_panels authCode generateCode statusCode prism
       option_map block_style textContent highlighted].
  rewrite Hg. cbn [panel with_panel with_panels authCode generateCode statusCode prism
       option_map block_style textContent highlighted].
  rewrite Ht. cbn [panel with_panel with_panels authCode generateCode statusCode prism
       option_map block_style textContent highlighted].
  destruct (highlightAll_available (prism s)); reflexivity.
Qed.

(** The listener on a page whose panels are in place. *)
Lemma languageSelect_change_present
    (s : State) (l : Language) (a g t : CodeBlock) :
  authCode s = Some a -> generateCode s = Some g -> statusCode s = Some t ->
  let twice text b := shown (prism s) text (shown (prism s) text b) in
  languageSelect_change (key l) s =
  (mkState (key l) (currentLanguage s) false
           (Some (twice (authentication (examples_of l)) a))
           (Some (twice (websiteGeneration (examples_of l)) g))
           (Some (twice (projectStatus (examples_of l)) t))
           false (Some (key l)) (toasts s) (prism s),
   Ok tt).
Proof.
  intros Ha Hg Ht twice.
  unfold languageSelect_change, finally, try_catch, animateLanguageChange,
    updateLanguageIndicator, setLoading, bind, modify.
  set (s3 := with_languages (key l) _ _).
  rewrite (updateCodeExamples_present s3 l a g t)
    by (try reflexivity; assumption).
  set (s4 := with_panels _ _ _ s3).
  rewrite (updateCodeExamples_present s4 l _ _ _ eq_refl eq_refl eq_refl eq_refl).
  reflexivity.
Qed.

Lemma index_html_panels (p : option Prism) : panels_present (index_html p).
Proof. intros [| |]; discriminate. Qed.

(** The listener never throws: its [catch] and [finally] blocks cannot. *)
Lemma languageSelect_change_returns (value : jsstring) (s : State) :
  outcome_of (languageSelect_change value s) = Ok tt /\
  isLoading (state_of (languageSelect_change value s)) = false /\
  selector_loading (state_of (languageSelect_change value s)) = false.
Proof.
  unfold languageSelect_change, finally, try_catch, outcome_of, state_of.
  match goal with
  | |- context [match ?b s with _ => _ end] => destruct (b s) as [s1 [[]|e]]
  end; cbn; auto.
Qed.

(** C7: with no usable highlighter -- [Prism] undefined or without
    [highlightAll] -- a language change ends normally and leaves the
    switcher ready for the next one; on a page with its panels in place,
    each panel then shows the plain text of its snippet, not rewritten by
    any highlighter, with [white-space: pre]. *)
Theorem fallback_without_highlighter (s : State) (value : jsstring) :
  highlightAll_available (prism s) = false ->
  let r := languageSelect_change value s in
  outcome_of r = Ok tt /\
  isLoading (state_of r) = false /\
  selector_loading (state_of r) = false /\
  (forall l : Language, value = key l -> panels_present s ->
   forall p : Panel, exists b : CodeBlock,
     panel p (state_of r) = Some b /\
     textContent b = snippet (examples_of l) p /\
     highlighted b = false /\
     whiteSpace (block_style b) = lit "pre").
Proof.
  intros Hu. cbv zeta.
  destruct (languageSelect_change_returns value s) as (H1 & H2 & H3).
  split; [exact H1|]. split; [exact H2|]. split; [exact H3|].
  intros l -> Hp p.
  destruct (authCode s) as [a|] eqn:Ha; [|destruct (Hp AuthCode Ha)].
  destruct (generateCode s) as [g|] eqn:Hg; [|destruct (Hp GenerateCode Hg)].
  destruct (statusCode s) as [t|] eqn:Ht; [|destruct (Hp StatusCode Ht)].
  rewrite (languageSelect_change_present s l a g t Ha Hg Ht).
  unfold state_of, shown. rewrite Hu.
  destruct p; cbn; eexists; repeat split.
Qed.

(** No [Prism] at all, JavaScript chosen on the page of index.html. *)
Lemma fallback_without_highlighter_witness :
  outcome_of (languageSelect_change (key javascript) (index_html None)) = Ok tt /\
  exists b : CodeBlock,
    panel StatusCode
      (state_of (languageSelect_change (key javascript) (index_html None))) =
      Some b /\
    textContent b = javascript_projectStatus /\
    highlighted b = false.
Proof.
  destruct (fallback_without_highlighter (index_html None) (key javascript)
              eq_refl) as (H1 & _ & _ & H4).
  split; [exact H1|].
  destruct (H4 javascript eq_refl (index_html_panels None) StatusCode)
    as (b & Hb & Ht & Hh & _).
  exists b. auto.
Defined.

End CodeExamplesFacts.

(** ** More on the playground *)
Module PlaygroundMore.
Import Playground PlaygroundFacts.

(** X1: whatever the request came to, and whatever the highlighter, the
    [finally] block hands the controls back: the button is enabled and
    carries its label, the mode select is enabled, the busy class is gone. *)
Theorem controls_are_handed_back (s : State) (o : FetchOutcome) :
  let s' := state_of (generateWebsite o s) in
  runButton_disabled s' = false /\
  runButton_text s' = lit "Generate Website" /\
  previewMode_disabled s' = false /\
  previewControls_loading s' = false.
Proof.
  cbv zeta. unfold generateWebsite, finally, state_of.
  destruct (try_catch (before_fetch ;; after_fetch o) on_error s) as [s1 r].
  rewrite at_last_eq. cbn. auto.
Qed.



(** X3: a 2xx response whose body is not JSON, or is [null], ends like a
    failure: the catch block writes the JSON text of an object with
    [error: true] and a [message] string to the preview pane and hands the
    pane to [Prism.highlightElement]; the frame keeps its address.  With a
    highlighter that has [highlightElement] the pane reads what it makes of
    that text and the handler ends normally; with none the pane keeps the
    JSON text and the exception leaves the handler. *)
Theorem unreadable_success_is_an_error
    (stringify : json -> jsstring) (markup_text : jsstring -> jsstring)
    (s : State) (r : Response) :
  ok r = true ->
  json_body r = Ok JNull \/ (exists e, json_body r = Throw e) ->
  exists message : jsstring,
    let x := generateWebsite (Responded r) s in
    let written :=
      JObj [(lit "error", JBool true); (lit "message", JStr message)] in
    let available := highlightElement_available (prism s) in
    previewCode (state_of x) = Some written /\
    previewCode_highlighted (state_of x) = available /\
    PreviewPane.pane_reads stringify markup_text (state_of x) =
      Some (if available then markup_text (stringify written)
            else stringify written) /\
    previewFrame_src (state_of x) = previewFrame_src s /\
    (available = true -> outcome_of x = Ok tt) /\
    (available = false -> exists e, outcome_of x = Throw e).
Proof.
  intros Hok Hb. rewrite generateWebsite_split.
  unfold generateWebsite_begin. rewrite before_fetch_eq.
  change (state_of (?a, ?b)) with a.
  set (s1 := with_request _ _).
  assert (T : exists s2 e,
             after_fetch (Responded r) s1 = (s2, Throw e) /\
             prism s2 = prism s /\
             previewFrame_src s2 = previewFrame_src s /\
             runButton_disabled s2 = true).
  { unfold after_fetch, bind, lift. cbn [settle].
    destruct r as [k body]. cbn in Hok, Hb. subst k. cbn [json_body ok].
    destruct Hb as [->|[e ->]].
    - pose proof (updatePreviewCode_cases JNull s1) as U.
      change (prism s1) with (prism s) in U.
      destruct (highlightElement_available (prism s)).
      + rewrite U. cbn [get]. do 2 eexists. split; [reflexivity|].
        cbn. auto.
      + destruct U as [e U]. rewrite U. do 2 eexists.
        split; [reflexivity|]. cbn. auto.
    - do 2 eexists. split; [reflexivity|]. cbn. auto. }
  destruct T as (s2 & e & He & P2 & F2 & _).
  exists (message e). cbv zeta.
  unfold generateWebsite_resume, finally, try_catch, on_error, showError.
  rewrite He.
  pose proof (updatePreviewCode_cases (error_object (message e)) s2) as U.
  rewrite P2 in U. unfold PreviewPane.pane_reads.
  destruct (highlightElement_available (prism s)).
  - rewrite U, at_last_eq. unfold outcome_of, state_of. cbn.
    repeat split; auto. discriminate.
  - destruct U as [e' U]. rewrite U, at_last_eq.
    unfold outcome_of, state_of. cbn.
    repeat split; auto; [discriminate | eexists; reflexivity].
Qed.

Lemma unreadable_success_is_an_error_witness :
  exists message : jsstring,
    previewCode
      (state_of (generateWebsite (Responded (mkResponse true (Ok JNull)))
                   (index_html (Some index_html_Prism)))) =
    Some (JObj [(lit "error", JBool true); (lit "message", JStr message)]).
Proof.
  destruct (unreadable_success_is_an_error (fun _ => []) (fun t => t)
              (index_html (Some index_html_Prism))
              (mkResponse true (Ok JNull)) eq_refl
              (or_introl eq_refl)) as (m & H & _).
  exists m. exact H.
Defined.

(** X4: without [highlightElement] the initial state cannot be set up: the
    description and the hint are written, then the call throws, and so does
    every reset. *)
Theorem initial_state_needs_highlightElement (s : State) :
  highlightElement_available (prism s) = false ->
  exists e : Error,
    outcome_of (setInitialState s) = Throw e /\
    outcome_of (resetPlayground s) = Throw e /\
    description (state_of (setInitialState s)) = default_description /\
    previewCode (state_of (setInitialState s)) = Some initial_message /\
    previewCode_highlighted (state_of (setInitialState s)) = false.
Proof.
  unfold highlightElement_available, resetPlayground, setInitialState,
    updatePreviewCode, bind, modify, gets, throw, state_of, outcome_of.
  cbn [fst snd prism with_previewCode with_description with_checkboxes
       with_style].
  destruct (prism s) as [h|]; [intros ->|intros _];
    eexists; cbn; repeat split.
Qed.

(** The page with the stand-alone highlighter as the global one. *)
Lemma initial_state_needs_highlightElement_witness :
  exists e : Error,
    outcome_of (setInitialState (index_html (Some prism_js))) = Throw e.
Proof.
  destruct (initial_state_needs_highlightElement
              (index_html (Some prism_js)) eq_refl) as (e & H & _).
  exists e. exact H.
Defined.

End PlaygroundMore.

(** ** More on the key-request form *)
Module KeyRequestMore.
Import Regex RegexFacts KeyRequest KeyRequestFacts KeyRequestNotes.

Lemma begin_valid (s : State) :
  isValidEmail (value (email s)) = true ->
  2 <= JsString.length (value (company s)) ->
  handleApiKeyGeneration_begin s = (submitted (cleared s), Ok true).
Proof.
  intros He Hc. unfold handleApiKeyGeneration_begin, bind.
  rewrite clearErrors_eq. fold (cleared s). rewrite validateForm_eq.
  assert (E : value (email (cleared s)) = value (email s))
    by (cbn; apply value_clear_group).
  assert (C : value (company (cleared s)) = value (company s))
    by (cbn; apply value_clear_group).
  unfold validated. rewrite E, C, He.
  apply Nat.ltb_ge in Hc. rewrite Hc. reflexivity.
Qed.

Lemma run_valid (o : FetchOutcome) (s : State) :
  isValidEmail (value (email s)) = true ->
  2 <= JsString.length (value (company s)) ->
  handleApiKeyGeneration o s =
  handleApiKeyGeneration_resume o (submitted (cleared s)).
Proof.
  intros He Hc. rewrite handleApiKeyGeneration_split. unfold bind.
  rewrite (begin_valid s He Hc). reflexivity.
Qed.

(** Text made of safe code units reads as itself. *)
Lemma safe_text_reads_itself (k : jsstring) :
  Forall Html.html_safe k -> Html.html_text k = Some k.
Proof.
  unfold Html.html_text. induction 1 as [|c k Hc _ IH]; cbn; [reflexivity|].
  destruct Hc as (H1 & H2 & _ & H4 & H5).
  apply N.eqb_neq in H1, H2, H4, H5. rewrite H1, H2, H4, H5, IH.
  reflexivity.
Qed.

(** X6: a valid form and a 2xx response with a JSON body other than [null],
    whose [api_key] is no object or array and, as a string, holds none of
    the code units that mean something in markup ([<], [&], the double
    quote, carriage return, NUL): one request went out with the two values,
    the success view replaces the form and shows the key as a string that
    reads as it is -- the text [undefined] when the body has no such
    property -- and no banner is added. *)
Theorem key_is_shown (s : State) (data : json) (api_key : Js.value) :
  isValidEmail (value (email s)) = true ->
  2 <= JsString.length (value (company s)) ->
  get data (lit "api_key") = Ok api_key ->
  Primitive.primitive api_key ->
  Forall Html.html_safe (value_to_string api_key) ->
  let r := handleApiKeyGeneration (Responded (mkResponse true (Ok data))) s in
  outcome_of r = Ok tt /\
  shown_key (state_of r) = Some (value_to_string api_key) /\
  Html.html_text (value_to_string api_key) = Some (value_to_string api_key) /\
  form_attached (state_of r) = false /\
  submit_loading (state_of r) = false /\
  banners (state_of r) = banners s /\
  exists request,
    requests (state_of r) = request :: requests s /\
    body request =
      JObj [(lit "email", JStr (value (email s)));
            (lit "company_name", JStr (value (company s)))].
Proof.
  intros He Hc Hg _ Hs. cbv zeta. rewrite (run_valid _ s He Hc).
  unfold handleApiKeyGeneration_resume, finally, try_catch, after_fetch,
    bind, lift, showSuccessMessage, setFormLoading, modify.
  cbn [settle json_body ok negb]. rewrite Hg.
  unfold outcome_of, state_of. cbn.
  split; [reflexivity|]. split; [reflexivity|].
  split; [apply safe_text_reads_itself; exact Hs|].
  repeat split. eexists. split; [reflexivity|].
  unfold keys_request, cleared.
  cbn [body email company with_email with_company].
  rewrite !value_clear_group. reflexivity.
Qed.

Lemma key_is_shown_witness :
  shown_key
    (state_of
       (handleApiKeyGeneration
          (Responded (mkResponse true (Ok (JObj []))))
          (opened (lit "you@company.com") (lit "Acme")))) =
  Some (lit "undefined").
Proof.
  refine (proj1 (proj2
    (key_is_shown (opened (lit "you@company.com") (lit "Acme"))
       (JObj []) None eq_refl (le_S _ _ (le_S _ _ (le_n 2))) eq_refl I _))).
  repeat (constructor;
          [unfold Html.html_safe; repeat split; discriminate|]).
  constructor.
Defined.

Lemma resume_failed (o : FetchOutcome) (s : State) :
  failed o -> exists e, after_fetch o s = (s, Throw e).
Proof.
  unfold after_fetch, bind, lift, throw.
  destruct o as [e|[k [d|e]]]; simpl; intros H; subst; eauto.
  cbn [negb]. destruct (get d _); eauto.
Qed.



(** X8: once the success view has replaced the form, a request that fails has
    no form to put its banner in: the [catch] block itself throws a
    TypeError, which leaves the handler; the [finally] block still runs. *)
Theorem failure_after_success_is_uncaught (s : State) (o : FetchOutcome) :
  form_attached s = false ->
  failed o ->
  let r := handleApiKeyGeneration_resume o s in
  exists e : Error,
    outcome_of r = Throw e /\
    name e = "TypeError"%string /\
    banners (state_of r) = banners s /\
    submit_loading (state_of r) = false.
Proof.
  intros Ha Hf. cbv zeta.
  unfold handleApiKeyGeneration_resume, finally, try_catch.
  destruct (resume_failed o s Hf) as [e ->].
  unfold on_error, showErrorMessage, bind, gets, modify, throw,
    setFormLoading.
  rewrite Ha. unfold outcome_of, state_of. cbn.
  eexists. repeat split.
Qed.

(** Two submits, the first answered with a key, the second with a 500. *)
Lemma failure_after_success_is_uncaught_witness :
  exists e : Error,
    outcome_of
      (handleApiKeyGeneration_resume
         (Responded (mkResponse false (Ok (JObj []))))
         (page (run (start (lit "you@company.com") (lit "Acme"))
                    [Submit; Submit;
                     Settled (Responded (mkResponse true
                        (Ok (JObj [(lit "api_key", JStr (lit "k"))]))))])))
    = Throw e.
Proof.
  destruct (failure_after_success_is_uncaught
              (page (run (start (lit "you@company.com") (lit "Acme"))
                    [Submit; Submit;
                     Settled (Responded (mkResponse true
                        (Ok (JObj [(lit "api_key", JStr (lit "k"))]))))]))
              (Responded (mkResponse false (Ok (JObj []))))
              eq_refl eq_refl) as (e & H & _).
  exists e. exact H.
Defined.

(** *** Notes do not pile up *)

Lemma clear_group_clean (f : Field) :
  tidy f ->
  group_error (clear_group f) = false /\ group_messages (clear_group f) = [].
Proof.
  unfold tidy, clear_group. intros [[He Hm]|[He Hm]]; rewrite He; cbn.
  - destruct (group_messages f) as [|m [|m' l]]; cbn in *; try discriminate.
    auto.
  - auto.
Qed.

Lemma annotate_clean_tidy (m : jsstring) (f : Field) :
  group_error f = false /\ group_messages f = [] -> tidy (annotate m f).
Proof. intros [_ Hm]. left. cbn. rewrite Hm. auto. Qed.

Lemma begin_tidy (s : State) :
  tidy (email s) -> tidy (company s) ->
  tidy (email (state_of (handleApiKeyGeneration_begin s))) /\
  tidy (company (state_of (handleApiKeyGeneration_begin s))).
Proof.
  intros Te Tc. apply clear_group_clean in Te. apply clear_group_clean in Tc.
  unfold handleApiKeyGeneration_begin, bind.
  rewrite clearErrors_eq. fold (cleared s). rewrite validateForm_eq.
  unfold validated, state_of.
  destruct (isValidEmail _); destruct (Nat.ltb _ 2); cbn;
    split; try (apply annotate_clean_tidy; assumption);
    right; assumption.
Qed.

Lemma resume_fields (o : FetchOutcome) (s : State) :
  email (state_of (handleApiKeyGeneration_resume o s)) = email s /\
  company (state_of (handleApiKeyGeneration_resume o s)) = company s.
Proof.
  unfold handleApiKeyGeneration_resume, finally, try_catch, after_fetch,
    on_error, showErrorMessage, showSuccessMessage, setFormLoading, bind,
    lift, throw, gets, modify, ret, state_of.
  destruct o as [e|[k [d|e]]]; cbn [settle json_body ok negb];
    try destruct k; cbn [negb];
    try (destruct (get d _)); cbn;
    destruct (form_attached s); split; reflexivity.
Qed.

Lemma step_tidy (x : Session) (ev : Event) :
  tidy (email (page x)) /\ tidy (company (page x)) ->
  tidy (email (page (step x ev))) /\ tidy (company (page (step x ev))).
Proof.
  intros [Te Tc]. destruct ev as [|o]; unfold step.
  - destruct (form_attached (page x) && negb (submit_disabled (page x)));
      [|auto].
    pose proof (begin_tidy (page x) Te Tc) as H. unfold state_of in H.
    destruct (handleApiKeyGeneration_begin (page x)) as [s [[|]|e]];
      exact H.
  - destruct (in_flight x); [auto|].
    pose proof (resume_fields o (page x)) as [H1 H2]. unfold state_of in *.
    destruct (handleApiKeyGeneration_resume o (page x)) as [s r].
    cbn in *. rewrite H1, H2. auto.
Qed.

(** X9: however often the form is submitted and however the requests end, a
    field never carries more than one error note, and it carries one
    exactly when its group is marked: each submission first takes the old
    note away. *)
Theorem notes_do_not_pile_up (x : Session) (evs : list Event) :
  tidy (email (page x)) -> tidy (company (page x)) ->
  let y := run x evs in
  tidy (email (page y)) /\ tidy (company (page y)) /\
  List.length (group_messages (email (page y))) <= 1 /\
  List.length (group_messages (company (page y))) <= 1.
Proof.
  intros Te Tc. cbv zeta.
  assert (T : tidy (email (page (run x evs))) /\
              tidy (company (page (run x evs)))).
  { unfold run. revert x Te Tc.
    induction evs as [|ev evs IH]; intros x Te Tc; cbn; [auto|].
    destruct (step_tidy x ev (conj Te Tc)) as [Te' Tc']. apply IH; assumption. }
  destruct T as [T1 T2]. split; [exact T1|]. split; [exact T2|].
  split; [destruct T1 as [[_ H]|[_ H]] | destruct T2 as [[_ H]|[_ H]]];
    rewrite H; cbn; lia.
Qed.

(** Three submissions of a form with a bad address. *)
Lemma notes_do_not_pile_up_witness :
  List.length
    (group_messages
       (email (page (run (start (lit "nobody") (lit "Acme"))
                         [Submit; Submit; Submit])))) <= 1.
Proof.
  destruct (notes_do_not_pile_up (start (lit "nobody") (lit "Acme"))
              [Submit; Submit; Submit]
              (or_intror (conj eq_refl eq_refl))
              (or_intror (conj eq_refl eq_refl))) as (_ & _ & H & _).
  exact H.
Defined.

(** *** What an accepted address looks like *)

Lemma plain_no_at (l : jsstring) :
  Forall plain l -> count_occ N.eq_dec l at_sign = 0.
Proof.
  intros H. apply count_occ_not_In. intros Hin.
  rewrite Forall_forall in H. destruct (H _ Hin) as [_ Hn]. congruence.
Qed.

Lemma plain_no_space (l : jsstring) :
  Forall plain l -> Forall (fun c => is_space c = false) l.
Proof. apply Forall_impl. intros c [H _]. exact H. Qed.

(** X10: an address that [isValidEmail] accepts holds exactly one [@], no
    white space at all, and at least five code units. *)
Theorem accepted_email_shape (e : jsstring) :
  isValidEmail e = true ->
  count_occ N.eq_dec e at_sign = 1 /\
  Forall (fun c => is_space c = false) e /\
  5 <= JsString.length e.
Proof.
  intros H. apply isValidEmail_spec in H.
  destruct H as (l & d & t & -> & Hl & Hd & Ht & Al & Ad & At).
  split; [|split].
  - rewrite !count_occ_app, (plain_no_at l Al), (plain_no_at d Ad),
      (plain_no_at t At). reflexivity.
  - repeat (apply Forall_app; split); try (apply plain_no_space; assumption);
      constructor; try reflexivity; constructor.
  - unfold JsString.length. rewrite !length_app. cbn.
    destruct l; [congruence|]. destruct d; [congruence|].
    destruct t; [congruence|]. cbn. lia.
Qed.

Lemma accepted_email_shape_witness :
  count_occ N.eq_dec (lit "a@b.c") at_sign = 1.
Proof.
  destruct (accepted_email_shape (lit "a@b.c") eq_refl) as (H & _).
  exact H.
Defined.

End KeyRequestMore.

(** ** More on the example switcher *)
Module CodeExamplesMore.
Import CodeExamples CodeExamplesFacts.

Lemma update_ok (s : State) : updateCodeExamples s = (updated s, Ok tt).
Proof.
  unfold updated, state_of.
  unfold updateCodeExamples, bind, gets.
  destruct (assoc (currentLanguage s) codeExamples) as [ex|];
    [|reflexivity].
  unfold try_catch, set_textContent, handleUpdateError, highlightAll,
    applyBasicFormatting, on_blocks, bind, gets, modify, throw, ret.
  cbn [forEach].
  unfold bind, gets, modify, ret.
  destruct (authCode s) as [a|] eqn:Ha, (generateCode s) as [g|] eqn:Hg,
    (statusCode s) as [t|] eqn:Ht;
    cbn [panel with_panel with_panels authCode generateCode statusCode prism];
    rewrite ?Ha, ?Hg, ?Ht;
    cbn [panel with_panel with_panels authCode generateCode statusCode prism];
    rewrite ?Ha, ?Hg, ?Ht;
    try (destruct (highlightAll_available (prism s))); reflexivity.
Qed.

Ltac by_panels s :=
  let Ha := fresh "Ha" in
  let Hg := fresh "Hg" in
  let Ht := fresh "Ht" in
  unfold try_catch, set_textContent, handleUpdateError, highlightAll,
    applyBasicFormatting, on_blocks, bind, gets, modify, throw, ret;
  cbn [forEach];
  unfold bind, gets, modify, ret;
  destruct (authCode s) as [?a|] eqn:Ha, (generateCode s) as [?g|] eqn:Hg,
    (statusCode s) as [?t|] eqn:Ht;
  cbn [panel with_panel with_panels authCode generateCode statusCode prism];
  rewrite ?Ha, ?Hg, ?Ht;
  cbn [panel with_panel with_panels authCode generateCode statusCode prism];
  rewrite ?Ha, ?Hg, ?Ht.

(** [updateCodeExamples] touches the panels and nothing else. *)
Lemma update_frame (s : State) : same_but_panels s (updated s).
Proof.
  unfold same_but_panels, updated, state_of, updateCodeExamples, bind, gets.
  destruct (assoc (currentLanguage s) codeExamples) as [ex|];
    [|cbn; repeat split].
  by_panels s; try (destruct (highlightAll_available (prism s)));
    cbn; repeat split.
Qed.

(** What it does to the panels, case by case. *)
Lemma update_panels (s : State) :
  match assoc (currentLanguage s) codeExamples with
  | None => forall p, panel p (updated s) = panel p s
  | Some ex =>
      match authCode s, generateCode s, statusCode s with
      | Some a, Some g, Some t =>
          forall p, panel p (updated s) =
            Some (shown (prism s) (snippet ex p)
                        (match p with
                         | AuthCode => a
                         | GenerateCode => g
                         | StatusCode => t
                         end))
      | _, _, _ => forall p, panel p (updated s) = None
      end
  end.
Proof.
  unfold updated, state_of, updateCodeExamples, bind, gets.
  destruct (assoc (currentLanguage s) codeExamples) as [ex|];
    [|reflexivity].
  by_panels s; unfold shown;
    try (destruct (highlightAll_available (prism s)));
    intros [| |]; cbn; rewrite ?Ha, ?Hg, ?Ht; reflexivity.
Qed.

(** The listener, spelled out: its body never throws. *)
Lemma languageSelect_change_eq (value : jsstring) (s : State) :
  languageSelect_change value s =
  (let s5 := updated (updated
               (with_languages value (currentLanguage s)
                  (with_loading true s))) in
   with_loading false (with_indicator (currentLanguage s5) s5),
   Ok tt).
Proof.
  unfold languageSelect_change, finally, try_catch, animateLanguageChange,
    updateLanguageIndicator, setLoading, bind, modify.
  rewrite !update_ok. reflexivity.
Qed.

Lemma changed_panels (value : jsstring) (s : State) (p : Panel) :
  panel p (state_of (languageSelect_change value s)) =
  panel p (updated (updated
             (with_languages value (currentLanguage s)
                (with_loading true s)))).
Proof. rewrite languageSelect_change_eq. destruct p; reflexivity. Qed.


(** X12: A value that is no key of the store (and no name that the store
    object inherits, where the lookup is not [undefined]) changes no panel:
    the former snippets stay on display under the new language name. *)
Theorem unknown_language_keeps_panels (s : State) (value : jsstring) :
  assoc value codeExamples = None ->
  ~ In value Inherited.inherited_keys ->
  forall p, panel p (state_of (languageSelect_change value s)) = panel p s.
Proof.
  intros Hn _ p. rewrite changed_panels.
  set (s3 := with_languages _ _ _).
  assert (H3 : forall p, panel p (updated s3) = panel p s3).
  { pose proof (update_panels s3) as U.
    change (currentLanguage s3) with value in U. rewrite Hn in U. exact U. }
  assert (H4 : forall p, panel p (updated (updated s3)) = panel p (updated s3)).
  { pose proof (update_panels (updated s3)) as U.
    destruct (update_frame s3) as (C & _). rewrite C in U.
    change (currentLanguage s3) with value in U. rewrite Hn in U. exact U. }
  rewrite H4, H3. destruct p; reflexivity.
Qed.

Lemma unknown_language_keeps_panels_witness :
  panel AuthCode
    (state_of (languageSelect_change (lit "ruby") (index_html None))) =
  Some empty_block.
Proof.
  refine (unknown_language_keeps_panels (index_html None) (lit "ruby")
            eq_refl _ AuthCode).
  cbn. intros H.
  repeat (destruct H as [H|H]; [discriminate H|]). exact H.
Defined.

Lemma updated_present (s : State) :
  panels_present s -> panels_present (updated s).
Proof.
  intros Hp. pose proof (update_panels s) as U.
  destruct (assoc (currentLanguage s) codeExamples) as [ex|].
  - destruct (authCode s) as [a|] eqn:Ha; [|destruct (Hp AuthCode Ha)].
    destruct (generateCode s) as [g|] eqn:Hg;
      [|destruct (Hp GenerateCode Hg)].
    destruct (statusCode s) as [t|] eqn:Ht; [|destruct (Hp StatusCode Ht)].
    intros p. rewrite U. discriminate.
  - intros p. rewrite U. apply Hp.
Qed.

Lemma change_present (value : jsstring) (s : State) :
  panels_present s ->
  panels_present (state_of (languageSelect_change value s)).
Proof.
  intros Hp p. rewrite changed_panels.
  apply updated_present, updated_present.
  intros [| |]; cbn; [apply (Hp AuthCode) | apply (Hp GenerateCode)
                      | apply (Hp StatusCode)].
Qed.

(** X13: on a page that has its three panels, no run of language changes --
    known keys or not, highlighter or not -- ever takes one away: the
    error note of [handleUpdateError] is never shown. *)
Theorem panels_are_kept (s : State) (values : list jsstring) :
  panels_present s -> panels_present (changes values s).
Proof.
  unfold changes. revert s.
  induction values as [|v values IH]; intros s Hp; cbn; [exact Hp|].
  apply IH. apply change_present. exact Hp.
Qed.

Lemma panels_are_kept_witness :
  panels_present
    (changes [lit "python"; lit "ruby"; lit "go"]
             (index_html (Some prism_js))).
Proof.
  exact (panels_are_kept (index_html (Some prism_js))
           [lit "python"; lit "ruby"; lit "go"] (index_html_panels _)).
Defined.

Lemma updated_missing (s : State) :
  assoc (currentLanguage s) codeExamples <> None ->
  (exists p, panel p s = None) ->
  forall p, panel p (updated s) = None.
Proof.
  intros Hk [q Hq]. pose proof (update_panels s) as U.
  destruct (assoc (currentLanguage s) codeExamples) as [ex|]; [|congruence].
  destruct (authCode s) as [a|] eqn:Ha, (generateCode s) as [g|] eqn:Hg,
    (statusCode s) as [t|] eqn:Ht; try exact U.
  destruct q; cbn in Hq; congruence.
Qed.

Lemma updated_gone (s : State) :
  (forall p, panel p s = None) -> forall p, panel p (updated s) = None.
Proof.
  intros Hn. pose proof (update_panels s) as U.
  destruct (assoc (currentLanguage s) codeExamples) as [ex|].
  - pose proof (Hn AuthCode) as Ha. cbn in Ha. rewrite Ha in U. exact U.
  - intros p. rewrite U. apply Hn.
Qed.

(** X14: when one of the three panels is missing, choosing a language of the
    store replaces the remaining ones by the error note, and no later
    change brings a panel back. *)
Theorem missing_panel_takes_all
    (s : State) (value : jsstring) (values : list jsstring) :
  (exists p, panel p s = None) ->
  assoc value codeExamples <> None ->
  forall p, panel p (changes (value :: values) s) = None.
Proof.
  intros Hm Hk. unfold changes. cbn [fold_left].
  assert (H0 : forall p,
             panel p (state_of (languageSelect_change value s)) = None).
  { intros p. rewrite changed_panels. apply updated_gone.
    apply updated_missing; [exact Hk|].
    destruct Hm as [q Hq]. exists q. destruct q; exact Hq. }
  revert H0. generalize (state_of (languageSelect_change value s)).
  induction values as [|v values IH]; intros s1 H1; cbn; [exact H1|].
  apply IH. intros p. rewrite changed_panels.
  apply updated_gone, updated_gone. intros [| |]; cbn;
    [apply (H1 AuthCode) | apply (H1 GenerateCode) | apply (H1 StatusCode)].
Qed.

Lemma missing_panel_takes_all_witness :
  panel AuthCode
    (changes [lit "python"; lit "curl"]
       (with_panel StatusCode None (index_html None))) = None.
Proof.
  refine (missing_panel_takes_all
            (with_panel StatusCode None (index_html None))
            (lit "python") [lit "curl"]
            (ex_intro _ StatusCode eq_refl) _ AuthCode).
  discriminate.
Defined.

(** X15: with [highlightAll] at hand the panels of the chosen language are
    handed to the highlighter and the basic formatting is not applied: the
    five properties that [applyBasicFormatting] writes -- display, padding,
    background, border radius, white-space -- stay as they were.  (The
    fade of the listener writes transition and opacity, which [Style] does
    not hold.) *)
Theorem highlighter_leaves_style (s : State) (l : Language) :
  highlightAll_available (prism s) = true ->
  panels_present s ->
  forall p, exists b0 b : CodeBlock,
    panel p s = Some b0 /\
    panel p (state_of (languageSelect_change (key l) s)) = Some b /\
    textContent b = snippet (examples_of l) p /\
    highlighted b = true /\
    block_style b = block_style b0.
Proof.
  intros Ha Hp p.
  destruct (authCode s) as [a|] eqn:Ea; [|destruct (Hp AuthCode Ea)].
  destruct (generateCode s) as [g|] eqn:Eg; [|destruct (Hp GenerateCode Eg)].
  destruct (statusCode s) as [t|] eqn:Et; [|destruct (Hp StatusCode Et)].
  rewrite (languageSelect_change_present s l a g t Ea Eg Et).
  unfold state_of, shown. rewrite Ha.
  destruct p; cbn; rewrite ?Ea, ?Eg, ?Et; do 2 eexists; repeat split.
Qed.

Lemma highlighter_leaves_style_witness :
  exists b : CodeBlock,
    panel GenerateCode
      (state_of (languageSelect_change (key go)
                   (index_html (Some prism_js)))) = Some b /\
    highlighted b = true /\ block_style b = no_style.
Proof.
  destruct (highlighter_leaves_style (index_html (Some prism_js)) go
              eq_refl (index_html_panels _) GenerateCode)
    as (b0 & b & H0 & H1 & _ & H3 & H4).
  exists b. inversion H0; subst. auto.
Defined.

End CodeExamplesMore.

(** ** The tabs *)
Module TabsFacts.
Import Tabs.

Lemma tabs_all_off (l : list TabButton) :
  filter tab_active (map tab_off l) = [].
Proof. induction l as [|t l IH]; cbn; auto. Qed.

Lemma panels_all_off (l : list CodePanel) :
  filter panel_active (map panel_off l) = [].
Proof. induction l as [|t l IH]; cbn; auto. Qed.

Lemma one_tab_on (l : list TabButton) :
  forall i t, nth_error l i = Some t ->
    filter tab_active (at_position i tab_on (map tab_off l)) = [tab_on t].
Proof.
  induction l as [|x l IH]; intros [|i] t H; cbn in *; try discriminate.
  - inversion H; subst. rewrite tabs_all_off. reflexivity.
  - apply IH. exact H.
Qed.

Lemma first_panel_on (id : jsstring) (l : list CodePanel) :
  filter panel_active (activate id (map panel_off l)) =
  match find (fun p => JsString.eqb (panel_id p) id) l with
  | Some p => [panel_on p]
  | None => []
  end.
Proof.
  induction l as [|x l IH]; cbn; [reflexivity|].
  destruct (JsString.eqb (panel_id x) id); cbn.
  - rewrite panels_all_off. reflexivity.
  - exact IH.
Qed.

(** X16: after a click on a tab that tab is the only active one, and the only
    active panel is the first one whose id is the tab's [data-tab]; when no
    panel has that id, all panels are hidden. *)
Theorem click_shows_one_panel (s : State) (i : nat) (t : TabButton) :
  nth_error (tabButtons s) i = Some t ->
  active_tabs (handleTabClick i s) = [tab_on t] /\
  active_panels (handleTabClick i s) =
    match find (fun p => JsString.eqb (panel_id p) (data_tab t))
               (codePanels s) with
    | Some p => [panel_on p]
    | None => []
    end /\
  List.length (active_panels (handleTabClick i s)) <= 1.
Proof.
  intros H. unfold handleTabClick, active_tabs, active_panels. rewrite H.
  cbn [tabButtons codePanels].
  rewrite (one_tab_on _ _ _ H), first_panel_on.
  split; [reflexivity|]. split; [reflexivity|].
  destruct (find _ _); cbn; lia.
Qed.

Lemma click_shows_one_panel_witness :
  active_panels (handleTabClick 2 index_html) =
  [mkPanel (lit "project-status") true].
Proof.
  destruct (click_shows_one_panel index_html 2
              (mkTab (lit "project-status") false) eq_refl) as (_ & H & _).
  exact H.
Defined.

End TabsFacts.

(** ** The copy buttons *)
Module CopyFacts.
Import CodeExamples CodeExamplesFacts CodeExamplesMore Copy.

(** X17: a copy never throws, and it is all or nothing: with the panel in the
    document and the clipboard granted, the clipboard holds the panel's
    text as it reads and the button says [Copied!]; with the panel gone or
    the clipboard refused, clipboard and label stay as they were. *)
Theorem copy_is_all_or_nothing
    (markup_text : jsstring -> jsstring)
    (page : State) (target : Panel) (granted : bool) (c : Clip) :
  let r := handleCopy markup_text page target granted c in
  outcome_of r = Ok tt /\
  match panel target page with
  | Some b =>
      if granted
      then clipboard (state_of r) = Some (text_of markup_text b) /\
           button_label (state_of r) = lit "Copied!"
      else state_of r = c
  | None => state_of r = c
  end.
Proof.
  cbv zeta. unfold handleCopy, try_catch, bind, lift, modify, throw, ret,
    outcome_of, state_of.
  destruct (panel target page) as [b|]; [destruct granted|]; cbn; auto.
Qed.

(** X18: without a highlighter, choosing a language and then copying a panel
    puts exactly that language's snippet on the clipboard, whatever text a
    highlighter would have left in the panel. *)
Theorem copy_after_fallback_is_the_snippet
    (markup_text : jsstring -> jsstring)
    (s : State) (l : Language) (target : Panel) (c : Clip) :
  highlightAll_available (prism s) = false ->
  panels_present s ->
  clipboard
    (state_of
       (handleCopy markup_text
          (state_of (languageSelect_change (key l) s)) target true c)) =
  Some (snippet (examples_of l) target).
Proof.
  intros Hu Hp.
  destruct (authCode s) as [a|] eqn:Ha; [|destruct (Hp AuthCode Ha)].
  destruct (generateCode s) as [g|] eqn:Hg; [|destruct (Hp GenerateCode Hg)].
  destruct (statusCode s) as [t|] eqn:Ht; [|destruct (Hp StatusCode Ht)].
  rewrite (languageSelect_change_present s l a g t Ha Hg Ht).
  unfold handleCopy, try_catch, bind, lift, modify, state_of, shown, text_of.
  rewrite Hu. destruct target; reflexivity.
Qed.

(** Python, then the copy button of the authentication panel. *)
Lemma copy_after_fallback_is_the_snippet_witness :
  clipboard
    (state_of
       (handleCopy (fun _ => [])
          (state_of (languageSelect_change (key python) (index_html None)))
          AuthCode true (mkClip None (lit "Copy")))) =
  Some python_authentication.
Proof.
  exact (copy_after_fallback_is_the_snippet (fun _ => [])
           (index_html None) python AuthCode (mkClip None (lit "Copy"))
           eq_refl (index_html_panels None)).
Defined.

End CopyFacts.

(** ** The focus trap *)
Module FocusTrapFacts.
Import FocusTrap.

Lemma step_inside
    (navigate : bool -> nat -> option nat) (n : nat) :
  (forall i, S i < n -> inside n (navigate false i)) ->
  (forall i, 0 < i -> i < n -> inside n (navigate true i)) ->
  forall active shift,
    inside n active -> inside n (focus_after navigate n active shift).
Proof.
  intros Hf Hb active shift (i & -> & Hi).
  unfold focus_after, handleTabKey. cbn [key shiftKey].
  rewrite jsstring_eqb_refl. cbn [negb].
  destruct n as [|last]; [lia|].
  destruct shift.
  - destruct i as [|j].
    + exists last. split; [reflexivity | lia].
    + apply Hb; lia.
  - destruct (Nat.eqb_spec i last) as [E|E].
    + exists 0. split; [reflexivity | lia].
    + apply Hf. lia.
Qed.

(** X19: with the focus on one of the modal's focusable elements, and as
    long as the browser's own Tab moves within them from any element but the
    last, and its Shift+Tab from any but the first, no run of Tab and
    Shift+Tab presses takes the focus off them: the handler wraps the two
    ends around.  Any other key the handler leaves to the browser. *)
Theorem focus_stays_in_modal
    (navigate : bool -> nat -> option nat) (n : nat)
    (active : option nat) (presses : list bool) :
  (forall i, S i < n -> inside n (navigate false i)) ->
  (forall i, 0 < i -> i < n -> inside n (navigate true i)) ->
  inside n active ->
  inside n (focus_run navigate n active presses) /\
  (forall e, JsString.eqb (key e) Tab = false ->
     handleTabKey n active e = None).
Proof.
  intros Hf Hb Ha. split.
  - unfold focus_run. revert active Ha.
    induction presses as [|e es IH]; intros active Ha; cbn; [exact Ha|].
    apply IH. apply step_inside; assumption.
  - intros e He. unfold handleTabKey. rewrite He. reflexivity.
Qed.

(** Three elements, the browser stepping by one; from the last element
    a Tab leads to the first. *)
Lemma focus_stays_in_modal_witness :
  inside 3
    (focus_run (fun shift i => Some (if shift then pred i else S i)) 3
               (Some 2) [false]).
Proof.
  refine (proj1 (focus_stays_in_modal
           (fun shift i => Some (if shift then pred i else S i)) 3
           (Some 2) [false] _ _ _)).
  - intros i Hi. exists (S i). split; [reflexivity | exact Hi].
  - intros i H0 Hi. exists (pred i). split; [reflexivity | lia].
  - exists 2. split; [reflexivity | lia].
Defined.

End FocusTrapFacts.

(** ** The page's highlighter *)
Module InlinePrismFacts.
Import InlinePrism.

Lemma loop_without_match (text : jsstring) (g : Grammar) :
  (forall name exec, In (name, exec) g -> exec text = None) ->
  forall tokens, tokenize_loop g text tokens = (tokens, text).
Proof.
  induction g as [|[name exec] g IH]; intros H tokens; cbn; [reflexivity|].
  rewrite (H name exec (or_introl eq_refl)).
  apply IH. intros n e Hin. apply (H n e). right. exact Hin.
Qed.

(** X20: when the language has no grammar, or no pattern of its grammar
    matches, [highlight] gives the text back as it is, unescaped. *)
Theorem unmatched_text_is_raw (text : jsstring) (grammar : option Grammar) :
  (forall g name exec,
      grammar = Some g -> In (name, exec) g -> exec text = None) ->
  highlight text grammar = text.
Proof.
  intros H. unfold highlight, tokenize.
  rewrite loop_without_match.
  - destruct text as [|c text]; [reflexivity|].
    cbn [app]. unfold stringify. cbn [map List.concat].
    unfold span. cbn [type content].
    rewrite jsstring_eqb_refl. apply app_nil_r.
  - destruct grammar as [g|]; [|intros ? ? []].
    intros name exec Hin. apply (H g name exec eq_refl Hin).
Qed.

Lemma unmatched_text_is_raw_witness :
  highlight (lit "<?php") None = lit "<?php".
Proof.
  apply (unmatched_text_is_raw (lit "<?php") None).
  intros g name exec H. discriminate H.
Defined.

Lemma total_length_app (a b : list Token) :
  total_length (a ++ b) = total_length a + total_length b.
Proof. unfold total_length. rewrite map_app, list_sum_app. reflexivity. Qed.

Lemma total_length_one (t : Token) :
  total_length [t] = List.length (content t).
Proof. unfold total_length. cbn. lia. Qed.

Lemma loop_conserves (g : Grammar) :
  within g ->
  forall text tokens,
    total_length (fst (tokenize_loop g text tokens))
      + List.length (snd (tokenize_loop g text tokens))
    = total_length tokens + List.length text /\
    List.length (fst (tokenize_loop g text tokens))
    <= List.length tokens + List.length g.
Proof.
  induction g as [|[name exec] g IH]; intros W text tokens;
    cbn [tokenize_loop fst snd List.length].
  - split; lia.
  - assert (W' : within g).
    { intros n e Hin. apply (W n e). right. exact Hin. }
    destruct (exec text) as [m|] eqn:E.
    + destruct (IH W' (skipn (List.length m) text)
                  (tokens ++ [mkToken name m])) as [H1 H2].
      pose proof (W name exec (or_introl eq_refl) text m E) as Hm.
      rewrite total_length_app, total_length_one, length_skipn in H1.
      rewrite length_app in H2. cbn [content List.length] in H1, H2.
      split; lia.
    + destruct (IH W' text tokens) as [H1 H2]. split; lia.
Qed.

(** X21: the tokens of a text add up to its length, and there is at most one
    token per rule of the grammar, and the rest: a rule marks one
    occurrence only. *)
Theorem tokens_conserve_length (text : jsstring) (g : Grammar) :
  within g ->
  total_length (tokenize text (Some g)) = List.length text /\
  List.length (tokenize text (Some g)) <= S (List.length g).
Proof.
  intros W. unfold tokenize.
  destruct (loop_conserves g W text []) as [H1 H2].
  destruct (tokenize_loop g text []) as [tokens rest].
  cbn [fst snd] in H1, H2.
  change (total_length []) with 0 in H1. cbn [List.length] in H2.
  destruct rest as [|c rest].
  - cbn [List.length] in H1. split; lia.
  - rewrite total_length_app, total_length_one, length_app.
    cbn [content List.length] in *. split; lia.
Qed.

(** One rule that matches the first code unit. *)
Lemma tokens_conserve_length_witness :
  total_length
    (tokenize (lit "{ }")
       (Some [(lit "punctuation", fun text => Some (firstn 1 text))])) = 3.
Proof.
  refine (proj1 (tokens_conserve_length (lit "{ }")
                   [(lit "punctuation", fun text => Some (firstn 1 text))] _)).
  intros name exec [H|[]] text m E. inversion H; subst.
  inversion E; subst. destruct text; cbn; lia.
Defined.

End InlinePrismFacts.

(** ** What the panels show *)
Module DisplayFacts.
Import CodeExamples CodeExamplesFacts PanelDisplay.




End DisplayFacts.
